(** * iWindsurfScraper: a shallow embedding of [iWindsurfScraper.py]

    The development follows the class [iWindsurfScraper]: the registry
    [LOCATION_LOOKUP], the payload extraction and the store update of
    [GetData], the normalisation and day trimming of [OrganizeData], and
    the horizontal axis of [PlotWindForecast].

    Python values are modelled as follows.
    - [str] is [string]; the text is taken to be ASCII (one byte per
      character), which is what the provider sends.
    - [int] is [Z]; positions in a frame's index are [nat].
    - a raised exception is the [Raise] case of [outcome].
    - the object returned by [json.loads] is a [json] tree; a JSON object
      keeps its members as an association list read the way a Python
      [dict] built from them answers: the last binding of a key wins.
    - a pandas DataFrame is a list of rows, each with its index label.

    Library calls ([str.title], [str.index], [str.rfind], slicing,
    [json.loads], [datetime.strptime], [datetime.weekday],
    [datetime.strftime], [numpy.unique], [DataFrame.drop],
    [DataFrame.append], [DataFrame.drop_duplicates]) are modelled by the
    functions of the same name below. *)

From Stdlib Require Import ZArith Lia List Bool Ascii String.
From Stdlib Require QArith_base.
Import ListNotations.

Set Warnings "-register-all".

Local Open Scope string_scope.
Local Open Scope list_scope.
Local Open Scope Z_scope.

(** ** Exceptions and results *)

Module Py.

(** JSON values as [json.loads] builds them.  A number without fraction
    and exponent is an [int]; any other number is a [float], which
    stands here as the exact decimal [mantissa * 10 ^ exponent] of its
    literal: the float is the binary64 value nearest to it, and where
    the code compares a float the comparison is made on that value (see
    [rounds_to]).  [JSpecial] holds the three constants the decoder
    accepts beyond the RFC: NaN, Infinity and -Infinity. *)
Inductive json : Type :=
| JNull
| JBool (b : bool)
| JInt (z : Z)
| JFloat (mantissa exponent : Z)
| JSpecial (name : string)
| JString (s : string)
| JArray (items : list json)
| JObject (members : list (string * json)).

(** The exceptions the modelled code can raise.  [KeyError] carries the
    key, so that a failed registry lookup and a missing payload field can
    be told apart. *)
Inductive exn : Type :=
| KeyError (key : json)
| ValueError
| JSONDecodeError
| TypeError
| IndexError
| TransportError.

Inductive outcome (A : Type) : Type :=
| Return (a : A)
| Raise (e : exn).

Arguments Return {A} a.
Arguments Raise {A} e.

Definition bind {A B : Type} (m : outcome A) (k : A -> outcome B) : outcome B :=
  match m with
  | Return a => k a
  | Raise e => Raise e
  end.

(** [[f x for x in l]]: the comprehension stops at the first element on
    which [f] raises. *)
Fixpoint comprehension {A B : Type} (f : A -> outcome B) (l : list A)
  : outcome (list B) :=
  match l with
  | [] => Return []
  | x :: rest =>
      bind (f x) (fun y =>
      bind (comprehension f rest) (fun ys => Return (y :: ys)))
  end.

End Py.

Export Py.

Notation "x <- m ;; k" := (bind m (fun x => k))
  (at level 61, m at next level, right associativity).

(** ** Strings *)

Module Str.

Definition chars (s : string) : list ascii := list_ascii_of_string s.
Definition of_chars (l : list ascii) : string := string_of_list_ascii l.

(** The double quote, and [dq], which writes a text that contains double
    quotes from one spelled with single quotes. *)
Definition dquote : ascii := ascii_of_nat 34.

Definition dq (s : string) : string :=
  of_chars (map (fun c => if Ascii.eqb c "'" then dquote else c) (chars s)).

Definition len (s : string) : Z := Z.of_nat (String.length s).

Definition code (c : ascii) : Z := Z.of_nat (nat_of_ascii c).

Definition in_range (lo hi c : ascii) : bool :=
  (code lo <=? code c) && (code c <=? code hi).

Definition is_lower (c : ascii) : bool := in_range "a" "z" c.
Definition is_upper (c : ascii) : bool := in_range "A" "Z" c.
Definition is_digit (c : ascii) : bool := in_range "0" "9" c.

Definition to_upper (c : ascii) : ascii :=
  if is_lower c then ascii_of_nat (nat_of_ascii c - 32) else c.
Definition to_lower (c : ascii) : ascii :=
  if is_upper c then ascii_of_nat (nat_of_ascii c + 32) else c.

(** [str.title()]: a cased character that follows an uncased one is
    upper-cased, a cased character that follows a cased one is
    lower-cased, everything else is kept.  [prev] is CPython's
    [previous_is_cased].  The cased characters are the ASCII letters:
    this is [str.title()] on ASCII text, and a byte above 127 is kept
    as it is. *)
Fixpoint title_from (prev : bool) (l : list ascii) : list ascii :=
  match l with
  | [] => []
  | c :: rest =>
      if is_lower c then
        (if prev then c else to_upper c) :: title_from true rest
      else if is_upper c then
        (if prev then to_lower c else c) :: title_from true rest
      else c :: title_from false rest
  end.

Definition title (s : string) : string := of_chars (title_from false (chars s)).

(** Position of the first [c] in [l], counted from [i]. *)
Fixpoint find_from (c : ascii) (i : Z) (l : list ascii) : option Z :=
  match l with
  | [] => None
  | x :: rest => if Ascii.eqb x c then Some i else find_from c (i + 1) rest
  end.

(** Position of the last [c] in [l], counted from [i]. *)
Fixpoint rfind_from (c : ascii) (i : Z) (l : list ascii) : option Z :=
  match l with
  | [] => None
  | x :: rest =>
      match rfind_from c (i + 1) rest with
      | Some j => Some j
      | None => if Ascii.eqb x c then Some i else None
      end
  end.

(** [s.index(c)]: lowest position of [c], [ValueError] when absent. *)
Definition index (s : string) (c : ascii) : outcome Z :=
  match find_from c 0 (chars s) with
  | Some i => Return i
  | None => Raise ValueError
  end.

(** [s.rfind(c)]: highest position of [c], [-1] when absent. *)
Definition rfind (s : string) (c : ascii) : Z :=
  match rfind_from c 0 (chars s) with
  | Some i => i
  | None => -1
  end.

(** A slice bound as CPython adjusts it: a negative bound counts from
    the end, and the result is clipped to [0 .. n]. *)
Definition adjust (n : Z) (bound : Z) : Z :=
  let b := if bound <? 0 then bound + n else bound in
  Z.max 0 (Z.min n b).

Definition slice_list {A : Type} (l : list A) (start stop : option Z) : list A :=
  let n := Z.of_nat (List.length l) in
  let a := match start with Some i => adjust n i | None => 0 end in
  let b := match stop with Some j => adjust n j | None => n end in
  firstn (Z.to_nat (b - a)) (skipn (Z.to_nat a) l).

(** [s[start:stop]] *)
Definition slice (s : string) (start stop : option Z) : string :=
  of_chars (slice_list (chars s) start stop).

End Str.

(** ** [json.loads]

    A recursive-descent decoder for the grammar of CPython's [json]
    module in its default (strict) mode.  [fuel] bounds the number of
    nested calls; [json_loads] supplies more than any text can use. *)

Module Json.

Import Str.

Definition is_ws (c : ascii) : bool :=
  match code c with
  | 32 | 9 | 10 | 13 => true
  | _ => false
  end.

Fixpoint skip_ws (l : list ascii) : list ascii :=
  match l with
  | c :: rest => if is_ws c then skip_ws rest else l
  | [] => []
  end.

Definition digit_val (c : ascii) : Z := code c - 48.

Definition hex_val (c : ascii) : option Z :=
  if is_digit c then Some (code c - 48)
  else if in_range "a" "f" c then Some (code c - 87)
  else if in_range "A" "F" c then Some (code c - 55)
  else None.

(** Longest run of decimal digits at the head of [l]. *)
Fixpoint take_digits (l : list ascii) : list ascii * list ascii :=
  match l with
  | c :: rest =>
      if is_digit c then
        let '(ds, r) := take_digits rest in (c :: ds, r)
      else ([], l)
  | [] => ([], [])
  end.

Definition digits_val (ds : list ascii) : Z :=
  fold_left (fun acc c => 10 * acc + digit_val c) ds 0.

(** UTF-8 bytes of a code point of the basic plane. *)
Definition utf8 (cp : Z) : list ascii :=
  let byte z := ascii_of_nat (Z.to_nat z) in
  if cp <? 128 then [byte cp]
  else if cp <? 2048 then [byte (192 + cp / 64); byte (128 + cp mod 64)]
  else [byte (224 + cp / 4096); byte (128 + (cp / 64) mod 64);
        byte (128 + cp mod 64)].

(** The characters of a string literal after its opening quote, up to
    and including the closing quote. *)
Fixpoint scan_string (l : list ascii) (acc : list ascii)
  : option (string * list ascii) :=
  match l with
  | [] => None
  | c :: rest =>
      if Ascii.eqb c dquote then Some (of_chars (rev acc), rest)
      else if Ascii.eqb c "\" then
        match rest with
        | e :: rest' =>
            let simple x := scan_string rest' (x :: acc) in
            if Ascii.eqb e dquote then simple dquote
            else if Ascii.eqb e "\" then simple "\"%char
            else if Ascii.eqb e "/" then simple "/"%char
            else if Ascii.eqb e "b" then simple (ascii_of_nat 8)
            else if Ascii.eqb e "f" then simple (ascii_of_nat 12)
            else if Ascii.eqb e "n" then simple (ascii_of_nat 10)
            else if Ascii.eqb e "r" then simple (ascii_of_nat 13)
            else if Ascii.eqb e "t" then simple (ascii_of_nat 9)
            else if Ascii.eqb e "u" then
              match rest' with
              | h1 :: h2 :: h3 :: h4 :: rest'' =>
                  match hex_val h1, hex_val h2, hex_val h3, hex_val h4 with
                  | Some a, Some b, Some c', Some d =>
                      scan_string rest''
                        (rev (utf8 (4096 * a + 256 * b + 16 * c' + d)) ++ acc)
                  | _, _, _, _ => None
                  end
              | _ => None
              end
            else None
        | [] => None
        end
      else if code c <? 32 then None
      else scan_string rest (c :: acc)
  end.

(** A number literal: an optional minus sign, then either a single zero
    or a digit run that starts with a non-zero digit, then an optional
    fraction (a dot and at least one digit), then an optional exponent
    (e or E, an optional sign, at least one digit).  As with the
    decoder's regular expression, a fraction or an exponent is taken
    only when it is complete. *)
Definition scan_number (l : list ascii) : option (json * list ascii) :=
  let '(neg, l1) :=
    match l with
    | c :: r => if Ascii.eqb c "-" then (true, r) else (false, l)
    | [] => (false, l)
    end in
  let sign z := if neg then - z else z in
  let int_part :=
    match l1 with
    | c :: r =>
        if Ascii.eqb c "0" then Some ([c], r)
        else if is_digit c then Some (take_digits l1)
        else None
    | [] => None
    end in
  match int_part with
  | None => None
  | Some (ids, l2) =>
      let '(fds, l3) :=
        match l2 with
        | c :: r =>
            if Ascii.eqb c "." then
              match take_digits r with
              | ([], _) => ([], l2)
              | (ds, r') => (ds, r')
              end
            else ([], l2)
        | [] => ([], l2)
        end in
      let '(ex, l4) :=
        match l3 with
        | c :: r =>
            if Ascii.eqb c "e" || Ascii.eqb c "E" then
              let '(eneg, r1) :=
                match r with
                | s :: r' =>
                    if Ascii.eqb s "-" then (true, r')
                    else if Ascii.eqb s "+" then (false, r')
                    else (false, r)
                | [] => (false, r)
                end in
              match take_digits r1 with
              | ([], _) => (None, l3)
              | (ds, r') =>
                  (Some (if eneg then - digits_val ds else digits_val ds), r')
              end
            else (None, l3)
        | [] => (None, l3)
        end in
      match fds, ex with
      | [], None => Some (JInt (sign (digits_val ids)), l4)
      | _, _ =>
          let e := match ex with Some e => e | None => 0 end in
          Some (JFloat (sign (digits_val (ids ++ fds)))
                       (e - Z.of_nat (List.length fds)), l4)
      end
  end.

(** [strip_prefix p l] is the rest of [l] after the prefix [p]. *)
Fixpoint strip_prefix (p l : list ascii) : option (list ascii) :=
  match p, l with
  | [], _ => Some l
  | a :: p', b :: l' => if Ascii.eqb a b then strip_prefix p' l' else None
  | _ :: _, [] => None
  end.

Definition scan_constant (l : list ascii) : option (json * list ascii) :=
  let try (word : string) (v : json) (otherwise : option (json * list ascii)) :=
    match strip_prefix (chars word) l with
    | Some r => Some (v, r)
    | None => otherwise
    end in
  try "null" JNull
  (try "true" (JBool true)
  (try "false" (JBool false)
  (try "NaN" (JSpecial "NaN")
  (try "Infinity" (JSpecial "Infinity")
  (try "-Infinity" (JSpecial "-Infinity") None))))).

(** [parse_value] decodes one value at the head of the text;
    [parse_elements] the items of an array after its first bracket;
    [parse_members] the members of an object, each starting at the
    quote of its key. *)
Fixpoint parse_value (fuel : nat) (l : list ascii) : option (json * list ascii) :=
  match fuel with
  | O => None
  | S fuel' =>
      match l with
      | [] => None
      | c :: rest =>
          if Ascii.eqb c dquote then
            match scan_string rest [] with
            | Some (s, r) => Some (JString s, r)
            | None => None
            end
          else if Ascii.eqb c "{" then
            match skip_ws rest with
            | c' :: r =>
                if Ascii.eqb c' "}" then Some (JObject [], r)
                else parse_members fuel' (c' :: r) []
            | [] => None
            end
          else if Ascii.eqb c "[" then
            match skip_ws rest with
            | c' :: r =>
                if Ascii.eqb c' "]" then Some (JArray [], r)
                else parse_elements fuel' (c' :: r) []
            | [] => None
            end
          else
            match scan_constant l with
            | Some res => Some res
            | None => scan_number l
            end
      end
  end

with parse_elements (fuel : nat) (l : list ascii) (acc : list json)
  : option (json * list ascii) :=
  match fuel with
  | O => None
  | S fuel' =>
      match parse_value fuel' l with
      | None => None
      | Some (v, r) =>
          match skip_ws r with
          | c :: r' =>
              if Ascii.eqb c "," then parse_elements fuel' (skip_ws r') (v :: acc)
              else if Ascii.eqb c "]" then Some (JArray (rev (v :: acc)), r')
              else None
          | [] => None
          end
      end
  end

with parse_members (fuel : nat) (l : list ascii) (acc : list (string * json))
  : option (json * list ascii) :=
  match fuel with
  | O => None
  | S fuel' =>
      match l with
      | q :: rest =>
          if Ascii.eqb q dquote then
            match scan_string rest [] with
            | None => None
            | Some (k, r) =>
                match skip_ws r with
                | c :: r1 =>
                    if Ascii.eqb c ":" then
                      match parse_value fuel' (skip_ws r1) with
                      | None => None
                      | Some (v, r2) =>
                          match skip_ws r2 with
                          | d :: r3 =>
                              if Ascii.eqb d "," then
                                parse_members fuel' (skip_ws r3) ((k, v) :: acc)
                              else if Ascii.eqb d "}" then
                                Some (JObject (rev ((k, v) :: acc)), r3)
                              else None
                          | [] => None
                          end
                      end
                    else None
                | [] => None
                end
            end
          else None
      | [] => None
      end
  end.

(** [json.loads(s)]: leading and trailing white space is skipped, and
    anything else after the value is an error. *)
Definition json_loads (s : string) : outcome json :=
  let l := chars s in
  match parse_value (2 * List.length l + 2) (skip_ws l) with
  | Some (v, r) =>
      match skip_ws r with
      | [] => Return v
      | _ :: _ => Raise JSONDecodeError
      end
  | None => Raise JSONDecodeError
  end.

End Json.

(** ** [datetime] *)

Module Datetime.

Import Str.

Record datetime : Type := mk_datetime {
  year : Z;
  month : Z;
  day : Z;
  hour : Z;
  minute : Z;
  second : Z
}.

Definition eqb (a b : datetime) : bool :=
  (year a =? year b) && (month a =? month b) && (day a =? day b) &&
  (hour a =? hour b) && (minute a =? minute b) && (second a =? second b).

Definition is_leap (y : Z) : bool :=
  (y mod 4 =? 0) && (negb (y mod 100 =? 0) || (y mod 400 =? 0)).

Definition days_in_month (y m : Z) : Z :=
  match m with
  | 1 | 3 | 5 | 7 | 8 | 10 | 12 => 31
  | 4 | 6 | 9 | 11 => 30
  | 2 => if is_leap y then 29 else 28
  | _ => 0
  end.

(** Days in the year [y] before the first of month [m]. *)
Definition days_before_month (y m : Z) : Z :=
  let leap := if is_leap y then 1 else 0 in
  match m with
  | 1 => 0
  | 2 => 31
  | 3 => 59 + leap
  | 4 => 90 + leap
  | 5 => 120 + leap
  | 6 => 151 + leap
  | 7 => 181 + leap
  | 8 => 212 + leap
  | 9 => 243 + leap
  | 10 => 273 + leap
  | 11 => 304 + leap
  | _ => 334 + leap
  end.

(** Days before January 1st of year [y]. *)
Definition days_before_year (y : Z) : Z :=
  let p := y - 1 in
  p * 365 + p / 4 - p / 100 + p / 400.

(** [toordinal()]: January 1st of year 1 is day 1. *)
Definition toordinal (t : datetime) : Z :=
  days_before_year (year t) + days_before_month (year t) (month t) + day t.

(** [weekday()]: Monday is 0 and Sunday is 6. *)
Definition weekday (t : datetime) : Z := (toordinal t + 6) mod 7.

(** The checks of the [datetime] constructor. *)
Definition valid (t : datetime) : bool :=
  (1 <=? year t) && (year t <=? 9999) &&
  (1 <=? month t) && (month t <=? 12) &&
  (1 <=? day t) && (day t <=? days_in_month (year t) (month t)) &&
  (0 <=? hour t) && (hour t <=? 23) &&
  (0 <=? minute t) && (minute t <=? 59) &&
  (0 <=? second t) && (second t <=? 59).

(** *** [strptime]

    [_strptime] turns the format into a regular expression: a directive
    becomes a group of alternatives tried in order, white space becomes
    [\s+], any other character stands for itself.  The expression is
    matched from the start of the text with backtracking; text left
    after the match is an error. *)

Definition pat := ascii -> bool.

Inductive token : Type :=
| Group (alternatives : list (list pat))
| Lit (c : ascii)
| Spaces.

Definition one (c : ascii) : pat := fun x => Ascii.eqb x c.

Definition is_space (c : ascii) : bool :=
  let n := code c in
  ((9 <=? n) && (n <=? 13)) || ((28 <=? n) && (n <=? 32)).

(** %Y, %m, %d, %H, %M and %S as [_strptime] spells them. *)
Definition re_Y : token := Group [[is_digit; is_digit; is_digit; is_digit]].
Definition re_m : token :=
  Group [[one "1"; in_range "0" "2"]; [one "0"; in_range "1" "9"];
         [in_range "1" "9"]].
Definition re_d : token :=
  Group [[one "3"; in_range "0" "1"]; [in_range "1" "2"; is_digit];
         [one "0"; in_range "1" "9"]; [in_range "1" "9"];
         [one " "; in_range "1" "9"]].
Definition re_H : token :=
  Group [[one "2"; in_range "0" "3"]; [in_range "0" "1"; is_digit]; [is_digit]].
Definition re_M : token := Group [[in_range "0" "5"; is_digit]; [is_digit]].
Definition re_S : token :=
  Group [[one "6"; in_range "0" "1"]; [in_range "0" "5"; is_digit]; [is_digit]].

(** The expression for the format '%Y-%m-%d %H:%M:%S'. *)
Definition format_regex : list token :=
  [re_Y; Lit "-"; re_m; Lit "-"; re_d; Spaces; re_H; Lit ":"; re_M; Lit ":"; re_S].

(** A fixed sequence of character classes at the head of the text. *)
Fixpoint match_seq (ps : list pat) (l : list ascii)
  : option (list ascii * list ascii) :=
  match ps with
  | [] => Some ([], l)
  | p :: ps' =>
      match l with
      | c :: rest =>
          if p c then
            match match_seq ps' rest with
            | Some (m, r) => Some (c :: m, r)
            | None => None
            end
          else None
      | [] => None
      end
  end.

Section Backtracking.

Context {R : Type}.

(** The first alternative that matches and lets the continuation [k]
    succeed. *)
Fixpoint match_alts (alts : list (list pat)) (l : list ascii)
    (k : list ascii -> list ascii -> option R) : option R :=
  match alts with
  | [] => None
  | a :: alts' =>
      match match_seq a l with
      | Some (m, r) =>
          match k m r with
          | Some res => Some res
          | None => match_alts alts' l k
          end
      | None => match_alts alts' l k
      end
  end.

(** [\s+], greedy: the longest run first, then shorter ones. *)
Fixpoint match_spaces (l : list ascii) (k : list ascii -> option R) : option R :=
  match l with
  | c :: rest =>
      if is_space c then
        match match_spaces rest k with
        | Some res => Some res
        | None => k rest
        end
      else None
  | [] => None
  end.

End Backtracking.

(** The groups captured by the first successful match, in order, and
    the text left after it. *)
Fixpoint match_tokens (toks : list token) (l : list ascii)
  : option (list (list ascii) * list ascii) :=
  match toks with
  | [] => Some ([], l)
  | Group alts :: toks' =>
      match_alts alts l (fun m r =>
        match match_tokens toks' r with
        | Some (gs, r') => Some (m :: gs, r')
        | None => None
        end)
  | Lit c :: toks' =>
      match l with
      | x :: rest => if Ascii.eqb x c then match_tokens toks' rest else None
      | [] => None
      end
  | Spaces :: toks' => match_spaces l (match_tokens toks')
  end.

(** [int(s)] on a captured group: digits, possibly after a space. *)
Definition int_of (g : list ascii) : Z :=
  fold_left (fun acc c => if is_digit c then 10 * acc + (code c - 48) else acc) g 0.

(** [datetime.datetime.strptime(s, '%Y-%m-%d %H:%M:%S')] *)
Definition strptime (s : string) : outcome datetime :=
  match match_tokens format_regex (chars s) with
  | Some ([gY; gm; gd; gH; gM; gS], []) =>
      let t := mk_datetime (int_of gY) (int_of gm) (int_of gd)
                           (int_of gH) (int_of gM) (int_of gS) in
      if valid t then Return t else Raise ValueError
  | _ => Raise ValueError
  end.

(** *** [strftime] *)

Definition digit_char (n : Z) : ascii := ascii_of_nat (Z.to_nat (48 + n)).

(** A number below 100 on two digits. *)
Definition two_digits (n : Z) : string :=
  String (digit_char (n / 10)) (String (digit_char (n mod 10)) EmptyString).

(** [t.strftime('%I%p')]: the hour on the 12-hour clock, on two digits,
    followed by AM or PM (the C locale's spelling). *)
Definition strftime_Ip (t : datetime) : string :=
  let h12 := if hour t mod 12 =? 0 then 12 else hour t mod 12 in
  String.append (two_digits h12) (if hour t <? 12 then "AM" else "PM").

End Datetime.

(** ** Python containers and pandas frames *)

Module Pandas.

Import Str Datetime.

(** [d[k]] on a [dict] given by its bindings in insertion order, where
    [is_k] tells whether a stored key equals [k]: the last binding of
    [k] is the one the dict holds. *)
Definition dict_get {K V : Type} (is_k : K -> bool) (d : list (K * V)) : option V :=
  fold_left (fun found kv => if is_k (fst kv) then Some (snd kv) else found) d None.

(** The keys of a [dict], each once, in order of first insertion. *)
Fixpoint dict_keys (d : list (string * json)) : list string :=
  match d with
  | [] => []
  | (k, _) :: rest =>
      k :: filter (fun k' => negb (String.eqb k' k)) (dict_keys rest)
  end.

(** [x[key]] for a string [key]: only a dict can be subscripted by a
    string. *)
Definition getitem (x : json) (key : string) : outcome json :=
  match x with
  | JObject members =>
      match dict_get (String.eqb key) members with
      | Some v => Return v
      | None => Raise (KeyError (JString key))
      end
  | _ => Raise TypeError
  end.

(** [for x in v]: a list yields its items, a dict its keys, a string its
    characters; nothing else decoded from JSON is iterable. *)
Definition iter (v : json) : outcome (list json) :=
  match v with
  | JArray items => Return items
  | JObject members => Return (map JString (dict_keys members))
  | JString s => Return (map (fun c => JString (String c EmptyString)) (chars s))
  | _ => Raise TypeError
  end.

(** [l[i]] on a list. *)
Definition list_getitem {A : Type} (l : list A) (i : Z) : outcome A :=
  let n := Z.of_nat (List.length l) in
  let j := if i <? 0 then i + n else i in
  if (0 <=? j) && (j <? n) then
    match nth_error l (Z.to_nat j) with
    | Some a => Return a
    | None => Raise IndexError
    end
  else Raise IndexError.

(** One row of the frame built by [OrganizeData], column by column. *)
Record row : Type := mk_row {
  Location : string;
  DateTime : datetime;
  Weekday : string;
  Hour : string;
  Wind_Speed_mph : json
}.

(** A frame: its rows in order, each with its index label. *)
Definition DataFrame : Type := list (nat * row).

Definition records (df : DataFrame) : list row := map snd df.

(** A fresh [RangeIndex]: labels 0, 1, 2, ... *)
Definition range_index (rows : list row) : DataFrame :=
  combine (seq 0 (List.length rows)) rows.

(** [pd.DataFrame({'Location': location, 'DateTime': ..., ...})]: the
    scalar is broadcast; the lists must have one length.  The wind
    speeds stand in the rows as they were decoded: that is what the
    column holds when they are all ints or all floats.  For a column of
    mixed kinds pandas chooses one type for the whole column (an int
    beside a float or a null becomes a float, a null beside numbers
    becomes NaN); that choice is outside the model, and no property
    below speaks of the speeds of such a column. *)
Fixpoint zip_columns (location : string) (times : list datetime)
    (weekdays hours : list string) (speeds : list json) : list row :=
  match times, weekdays, hours, speeds with
  | t :: ts, w :: ws, h :: hs, v :: vs =>
      mk_row location t w h v :: zip_columns location ts ws hs vs
  | _, _, _, _ => []
  end.

Definition new_frame (location : string) (times : list datetime)
    (weekdays hours : list string) (speeds : list json) : outcome DataFrame :=
  let n := List.length times in
  if (List.length weekdays =? n)%nat && (List.length hours =? n)%nat &&
     (List.length speeds =? n)%nat
  then Return (range_index (zip_columns location times weekdays hours speeds))
  else Raise ValueError.

(** [numpy.unique] on strings: the distinct values in ascending order. *)
Fixpoint insert_unique (x : string) (sorted : list string) : list string :=
  match sorted with
  | [] => [x]
  | y :: rest =>
      match String.compare x y with
      | Lt => x :: sorted
      | Eq => sorted
      | Gt => y :: insert_unique x rest
      end
  end.

Definition np_unique (l : list string) : list string :=
  fold_right insert_unique [] l.

(** [df.drop(index=labels)]: the rows whose label is not listed. *)
Definition drop (df : DataFrame) (labels : list nat) : DataFrame :=
  filter (fun ir => negb (existsb (Nat.eqb (fst ir)) labels)) df.

(** [df.append(other)] (pandas 1.x): a new frame with the rows of both;
    [df] itself is left as it is.  (From pandas 2.0 on the method is
    gone and the call raises before anything is assigned, which leaves
    [df] as it is all the same.) *)
Definition append (df other : DataFrame) : DataFrame := df ++ other.

(** Two rows with the same ['Location'] and ['DateTime']. *)
Definition same_key (a b : row) : bool :=
  String.eqb (Location a) (Location b) && Datetime.eqb (DateTime a) (DateTime b).

(** The rows that no later row duplicates on the key. *)
Fixpoint keep_last (rows : list row) : list row :=
  match rows with
  | [] => []
  | r :: rest =>
      if existsb (same_key r) rest then keep_last rest else r :: keep_last rest
  end.

(** [df.drop_duplicates(subset=['Location', 'DateTime'], keep='last',
    ignore_index=True)]: the frame that [inplace=True] puts in place of
    [df]. *)
Definition drop_duplicates (df : DataFrame) : DataFrame :=
  range_index (keep_last (records df)).

End Pandas.

(** ** The class [iWindsurfScraper] *)

Module iWindsurfScraper.

Import Str Json Datetime Pandas.

Definition DOTW : list string :=
  ["Monday"; "Tuesday"; "Wednesday"; "Thursday"; "Friday"; "Saturday"; "Sunday"].

Definition LOCATION_LOOKUP : list (string * Z) :=
  [("3Rd Ave Channel", 1374);
   ("Anita Rock-Crissy Field", 411);
   ("Palo Alto", 425);
   ("Coyote Point", 408)].

(** [{v: k for k, v in self.LOCATION_LOOKUP.items()}] *)
Definition inv_map : list (Z * string) :=
  map (fun kv => (snd kv, fst kv)) LOCATION_LOOKUP.

(** [LOCATION_LOOKUP[location.title()]] (line 60). *)
Definition spot_id_of (location : string) : outcome Z :=
  match dict_get (String.eqb (title location)) LOCATION_LOOKUP with
  | Some id => Return id
  | None => Raise (KeyError (JString (title location)))
  end.

(** [b ^ k] as a fraction, for any integer [k]. *)
Definition power (b k : Z) : QArith_base.Q :=
  if 0 <=? k then QArith_base.Qmake (b ^ k) 1
  else QArith_base.Qmake 1 (Z.to_pos (b ^ (- k))).

(** Whether the [float] that [json.loads] builds from a literal of
    value [m * 10 ^ e] equals the [int] [id].  The float is the binary64
    value nearest to the literal's value, the one with the even
    significand when two are equally near; so it equals [id] when [id]
    is a binary64 value and the literal lies within half a spacing of
    it, the two ends included exactly when the significand of [id] is
    even.  [L] is the binary exponent of [id]; the spacing above [id]
    is [2 ^ (L - 52)], and so is the one below unless [id] is a power
    of two, where it is half of that. *)
Definition rounds_to (m e id : Z) : bool :=
  let a := Z.abs id in
  let of_Z z := QArith_base.Qmake z 1 in
  if id =? 0 then
    QArith_base.Qle_bool (QArith_base.Qmult (of_Z (Z.abs m)) (power 10 e))
                         (power 2 (-1075))
  else
    let w := QArith_base.Qmult (of_Z (if id <? 0 then - m else m)) (power 10 e) in
    let L := Z.log2 a in
    let representable :=
      (L <=? 1023) && ((L <=? 52) || (a mod 2 ^ (L - 52) =? 0)) in
    let even := (L <? 52) || ((a / 2 ^ (L - 52)) mod 2 =? 0) in
    let below := if a =? 2 ^ L then power 2 (L - 54) else power 2 (L - 53) in
    let above := power 2 (L - 53) in
    let lo := QArith_base.Qminus (of_Z a) below in
    let hi := QArith_base.Qplus (of_Z a) above in
    representable &&
    (if even
     then QArith_base.Qle_bool lo w && QArith_base.Qle_bool w hi
     else negb (QArith_base.Qle_bool w lo) && negb (QArith_base.Qle_bool hi w)).

(** Whether a decoded value, used as a dict key, equals the [int] [id]:
    Python compares numbers by value, and [True] is 1. *)
Definition key_is (key : json) (id : Z) : bool :=
  match key with
  | JInt z => z =? id
  | JBool b => (if b then 1 else 0) =? id
  | JFloat m e => rounds_to m e id
  | _ => false
  end.

(** [inv_map[location_id]] (line 121); a list or a dict is not hashable. *)
Definition location_of (location_id : json) : outcome string :=
  match location_id with
  | JArray _ | JObject _ => Raise TypeError
  | _ =>
      match dict_get (key_is location_id) inv_map with
      | Some name => Return name
      | None => Raise (KeyError location_id)
      end
  end.

(** [x[:-5]] followed by [strptime] (line 110): only a string gets as
    far as being parsed. *)
Definition parse_local_time (x : json) : outcome datetime :=
  match x with
  | JString s => strptime (slice s None (Some (-5)))
  | _ => Raise TypeError
  end.

(** [x[1:] if x[0] == '0' else x] (line 117). *)
Definition strip_leading_zero (x : string) : string :=
  match x with
  | String c _ => if Ascii.eqb c "0" then slice x (Some 1) None else x
  | EmptyString => x
  end.

(** Lines 105 to 127 of [OrganizeData]: the columns and the frame
    [df_wind] before any row is dropped. *)
Definition wind_frame (wind_dict : json) : outcome DataFrame :=
  let weekdays := DOTW in
  model_data <- getitem wind_dict "model_data" ;;
  xs <- iter model_data ;;
  wind_time <- comprehension (fun x => getitem x "model_time_local") xs ;;
  model_data' <- getitem wind_dict "model_data" ;;
  xs' <- iter model_data' ;;
  wind_speed <- comprehension (fun x => getitem x "wind_speed") xs' ;;
  wind_time <- comprehension parse_local_time wind_time ;;
  let wind_weekday := map weekday wind_time in
  wind_weekday <- comprehension (list_getitem weekdays) wind_weekday ;;
  let wind_hour := map strftime_Ip wind_time in
  let wind_hour := map strip_leading_zero wind_hour in
  location_id <- getitem wind_dict "spot_id" ;;
  location <- location_of location_id ;;
  new_frame location wind_time wind_weekday wind_hour wind_speed.

(** The loop of lines 133 to 140: for each weekday label, the labels of
    the rows whose day of the month is not that of the label's first
    row, added to [indices]. *)
Fixpoint collect_indices (df_wind : DataFrame) (weekdays : list string)
    (indices : list nat) : outcome (list nat) :=
  match weekdays with
  | [] => Return indices
  | weekday :: rest =>
      let df_temp := filter (fun ir => String.eqb (Weekday (snd ir)) weekday) df_wind in
      match df_temp with
      | [] => Raise IndexError
      | (_, first) :: _ =>
          let day_first := DateTime first in
          let found :=
            filter (fun ir => negb (day (DateTime (snd ir)) =? day day_first)) df_temp in
          collect_indices df_wind rest (indices ++ map fst found)
      end
  end.

(** Lines 129 to 141 of [OrganizeData]. *)
Definition drop_repeated_days (df_wind : DataFrame) : outcome DataFrame :=
  let weekdays := np_unique (map (fun ir => Weekday (snd ir)) df_wind) in
  indices <- collect_indices df_wind weekdays [] ;;
  Return (drop df_wind indices).

Definition OrganizeData (wind_dict : json) : outcome DataFrame :=
  df_wind <- wind_frame wind_dict ;;
  drop_repeated_days df_wind.

(** Lines 77 to 79 of [GetData]: the text from the first opening brace
    to the last closing brace, decoded. *)
Definition extract_wind_dict (soup_text : string) : outcome json :=
  start_idx <- index soup_text "{" ;;
  let end_idx := rfind soup_text "}" + 1 in
  json_loads (slice soup_text (Some start_idx) (Some end_idx)).

(** *** The instance and its methods *)

Record scraper : Type := mk_scraper {
  data : option DataFrame;
  dict : option json
}.

(** [__init__] *)
Definition init : scraper := mk_scraper None None.

(** A method runs on the instance and either returns or raises; in both
    cases the instance is left in some state. *)
Definition method (A : Type) : Type := scraper -> outcome A * scraper.

Definition mret {A : Type} (a : A) : method A := fun self => (Return a, self).

Definition mbind {A B : Type} (m : method A) (k : A -> method B) : method B :=
  fun self =>
    match m self with
    | (Return a, self') => k a self'
    | (Raise e, self') => (Raise e, self')
    end.

Definition lift {A : Type} (o : outcome A) : method A := fun self => (o, self).

Definition get_data : method (option DataFrame) :=
  fun self => (Return (data self), self).
Definition set_data (df : DataFrame) : method unit :=
  fun self => (Return tt, mk_scraper (Some df) (dict self)).
Definition set_dict (v : json) : method unit :=
  fun self => (Return tt, mk_scraper (data self) (Some v)).

Notation "x <~ m ;; k" := (mbind m (fun x => k))
  (at level 61, m at next level, right associativity).

(** [GetData].  [soup] stands for lines 63 to 75: the text that the
    request for a spot yields once BeautifulSoup has read it, or the
    exception of the transport. *)
Definition GetData (soup : Z -> outcome string) (location : string)
  : method DataFrame :=
  spot_id <~ lift (spot_id_of location) ;;
  soup_text <~ lift (soup spot_id) ;;
  wind_dict <~ lift (extract_wind_dict soup_text) ;;
  _ <~ set_dict wind_dict ;;
  df_wind <~ lift (OrganizeData wind_dict) ;;
  self_data <~ get_data ;;
  _ <~ match self_data with
       | None => set_data df_wind
       | Some current =>
           (* the frame that [append] returns is not bound to anything *)
           let _ := append current df_wind in
           set_data (drop_duplicates current)
       end ;;
  mret df_wind.

End iWindsurfScraper.

Import Str Json Datetime Pandas iWindsurfScraper.

(** ** [PlotWindForecast]: what is drawn where

    The method draws with matplotlib; the definitions below are the
    values it computes for the horizontal axis: the rows it selects, the
    positions of the dashed lines, the captions of the weekdays and the
    ticks.  The heights (the largest wind speed, the limits of the
    vertical axis) are floating-point values of the drawing library and
    are not modelled; where their evaluation can raise on the way to a
    modelled value, it stands as a parameter. *)

Module Plotting.

(** Lines 153 to 158 of [PlotWindForecast]: the rows of the store whose
    ['Location'] is the title-cased [location].  [list(inv_map)] holds
    the keys of [inv_map], the spot numbers, among which the text
    [location.title()] is looked for. *)
Definition plot_rows (location : string) (self : scraper) : outcome DataFrame :=
  let df_wind := data self in
  location <-
    (if existsb (key_is (JString (title location))) (map fst inv_map)
     then location_of (JString (title location))
     else Return location) ;;
  match df_wind with
  | None => Raise TypeError
  | Some df_wind =>
      Return (filter (fun ir => String.eqb (Location (snd ir)) (title location)) df_wind)
  end.

(** Lines 166 to 169: the positions [x_temp] of the dashed lines. *)
Definition day_lines (df_wind : DataFrame) : list nat :=
  let df_temp := filter (fun ir => String.eqb (Hour (snd ir)) "12AM") df_wind in
  map fst df_temp.


(** [l[::6]]: every sixth item, from the first on; [skip] counts the
    items to pass over before the next one is taken. *)
Fixpoint stride6 {A : Type} (skip : nat) (l : list A) : list A :=
  match l with
  | [] => []
  | x :: rest =>
      match skip with
      | O => x :: stride6 5 rest
      | S k => stride6 k rest
      end
  end.

(** Lines 183, 184 and 198: the arguments [ticks] and [labels] of
    [plt.xticks]. *)
Definition xticks (df_wind : DataFrame) : list Z * list string :=
  let x_labels := map (fun ir => Hour (snd ir)) df_wind in
  let x := map Z.of_nat (seq 0 (List.length x_labels)) in
  (stride6 0 x, stride6 0 x_labels).

End Plotting.
Import Plotting.


(** ** The operations as the specification words them

    These definitions follow the specification's sentences; the theorems
    below compare them with the code's definitions above. *)

Module Spec.

(** The character [c] occurs at position [n] of [l] and nowhere before. *)
Definition first_at (c : ascii) (l : list ascii) (n : nat) : Prop :=
  nth_error l n = Some c /\ forall k, (k < n)%nat -> nth_error l k <> Some c.

(** The character [c] occurs at position [n] of [l] and nowhere after. *)
Definition last_at (c : ascii) (l : list ascii) (n : nat) : Prop :=
  nth_error l n = Some c /\ forall k, (n < k)%nat -> nth_error l k <> Some c.

(** The substring from position [i] to position [j], both included. *)
Definition span (s : string) (i j : nat) : string :=
  String.substring i (j + 1 - i) s.

(** The hour on the 12-hour clock: 12 at midnight and at noon. *)
Definition clock12 (h : Z) : Z := if h mod 12 =? 0 then 12 else h mod 12.

(** A number below 100 in decimal, without a leading zero. *)
Definition decimal (n : Z) : string :=
  if n <? 10 then String (digit_char n) EmptyString
  else String (digit_char (n / 10)) (String (digit_char (n mod 10)) EmptyString).

(** The hour label: the 12-hour clock followed, without a space, by AM
    or PM. *)
Definition hour_label (h : Z) : string :=
  String.append (decimal (clock12 h)) (if h <? 12 then "AM" else "PM").

(** The day of the month of the first row of [df] that bears [label]. *)
Definition first_day (df : DataFrame) (label : string) : option Z :=
  match find (fun ir => String.eqb (Weekday (snd ir)) label) df with
  | Some (_, r) => Some (day (DateTime r))
  | None => None
  end.

(** [trim]: the rows whose day of the month is that of the first row
    with their weekday label. *)
Definition trim (df : DataFrame) : DataFrame :=
  filter (fun ir =>
            match first_day df (Weekday (snd ir)) with
            | Some d => day (DateTime (snd ir)) =? d
            | None => true
            end) df.

(** The calendar date of a record. *)
Definition date (r : row) : Z * Z * Z :=
  (year (DateTime r), month (DateTime r), day (DateTime r)).

End Spec.

(** ** Example payloads *)

Module Examples.

(** A decoded payload for spot [spot] with the given records, each a
    local-time text and a wind speed. *)
Definition payload (spot : Z) (recs : list (string * Z)) : json :=
  JObject
    [("spot_id", JInt spot);
     ("model_data",
      JArray (map (fun r => JObject [("model_time_local", JString (fst r));
                                     ("wind_speed", JInt (snd r))]) recs))].

(** Payloads as the provider sends them: JSON text inside a callback. *)
Definition palo_alto_10 : string :=
  dq "jQuery17207893792136264395_1687721822087({'spot_id': 425, 'model_data': [{'model_time_local': '2024-03-07 09:00:00-0800', 'wind_speed': 10}]});".

Definition palo_alto_12 : string :=
  dq "jQuery17207893792136264395_1687721822087({'spot_id': 425, 'model_data': [{'model_time_local': '2024-03-07 09:00:00-0800', 'wind_speed': 12}]});".

(** The hour from 1 to 2 at night of the day on which summer time ends
    occurs twice, and the two texts differ only in the offset that
    [OrganizeData] strips. *)
Definition palo_alto_autumn : string :=
  dq "jQuery17207893792136264395_1687721822087({'spot_id': 425, 'model_data': [{'model_time_local': '2024-11-03 01:00:00-0700', 'wind_speed': 10}, {'model_time_local': '2024-11-03 01:00:00-0800', 'wind_speed': 12}]});".

(** A spot that the registry does not list. *)
Definition unknown_spot : string :=
  dq "jQuery17207893792136264395_1687721822087({'spot_id': 999, 'model_data': [{'model_time_local': '2024-03-07 09:00:00-0800', 'wind_speed': 12}]});".

Definition at_T (speed : json) : row :=
  mk_row "Palo Alto" (mk_datetime 2024 3 7 9 0 0) "Thursday" "9AM" speed.

(** Hourly local-time texts of March 2024: the hours [h], [h+1], ... of
    day [d], [n] of them. *)
Fixpoint hours_of_day (d : Z) (h : Z) (n : nat) : list (string * Z) :=
  match n with
  | O => []
  | S n' =>
      (String.append "2024-03-"
         (String.append (two_digits d)
            (String.append " " (String.append (two_digits h) ":00:00-0700"))),
       h) :: hours_of_day d (h + 1) n'
  end.

(** Monday the 4th to Sunday the 10th in full, then the first three
    hours of Monday the 11th. *)
Definition week_and_three_hours : list (string * Z) :=
  flat_map (fun d => hours_of_day d 0 24) [4; 5; 6; 7; 8; 9; 10]
  ++ hours_of_day 11 0 3.

(** The instance after one fetch for Palo Alto that yields the text
    [a], and after a second one that yields [b]. *)
Definition served (text : string) : Z -> outcome string := fun _ => Return text.

Definition fetch_once (a : string) : scraper :=
  snd (GetData (served a) "Palo Alto" init).

Definition fetch_twice (a b : string) : scraper :=
  snd (GetData (served b) "Palo Alto" (fetch_once a)).

(** The hour that occurs twice when summer time ends. *)
Definition at_1AM (speed : json) : row :=
  mk_row "Palo Alto" (mk_datetime 2024 11 3 1 0 0) "Sunday" "1AM" speed.

(** A payload whose only record carries a time the format rejects. *)
Definition bad_time : string :=
  dq "jQuery17207893792136264395_1687721822087({'spot_id': 425, 'model_data': [{'model_time_local': 'yesterday at noon', 'wind_speed': 12}]});".

Definition monday_to_monday : json := payload 425 week_and_three_hours.

(** The frame of that payload before any row is dropped. *)
Definition monday_frame : DataFrame :=
  match wind_frame monday_to_monday return DataFrame with
  | Return df => df
  | Raise _ => nil
  end.

Definition labelled (label : string) (d : Z) (ir : nat * row) : bool :=
  String.eqb (Weekday (snd ir)) label && (day (DateTime (snd ir)) =? d).

(** Two Fridays that share their day of the month: 1 March and
    1 November 2024. *)
Definition two_fridays : json :=
  payload 425 [("2024-03-01 09:00:00-0800", 10); ("2024-11-01 09:00:00-0700", 12)].

End Examples.

Import Examples.

(** ** Further example payloads *)

Module MoreExamples.

(** A transport that fails for the number 0 and otherwise serves [text]. *)
Definition served_but_zero (text : string) : Z -> outcome string :=
  fun spot_id => if spot_id =? 0 then Raise TransportError else Return text.


(** Two records a day apart. *)
Definition two_days : json :=
  payload 425 [("2024-03-07 09:00:00-0800", 10); ("2024-03-08 00:00:00-0800", 12)].

Definition two_days_frame : DataFrame :=
  [(0%nat, mk_row "Palo Alto" (mk_datetime 2024 3 7 9 0 0) "Thursday" "9AM" (JInt 10));
   (1%nat, mk_row "Palo Alto" (mk_datetime 2024 3 8 0 0 0) "Friday" "12AM" (JInt 12))].

Definition two_days_text : string :=
  dq "jQuery17207893792136264395_1687721822087({'spot_id': 425, 'model_data': [{'model_time_local': '2024-03-07 09:00:00-0800', 'wind_speed': 10}, {'model_time_local': '2024-03-08 00:00:00-0800', 'wind_speed': 12}]});".

End MoreExamples.
Import MoreExamples.

(** ** Notions for the further properties *)

Module Casing.
(** One step of [title_from]: the character written for [c] after a
    cased ([prev]) or uncased character, and whether [c] is cased. *)
Definition title_char (prev : bool) (c : ascii) : ascii :=
  if is_lower c then (if prev then c else to_upper c)
  else if is_upper c then (if prev then to_lower c else c)
  else c.

Definition cased (c : ascii) : bool := is_lower c || is_upper c.

(** [str.lower()] on ASCII text. *)
Definition lower (s : string) : string := of_chars (map to_lower (chars s)).

(** A text of ASCII characters only: the texts on which one character
    is one byte and on which the casing and the digits of the model are
    those of Python. *)
Definition is_ascii (s : string) : bool :=
  forallb (fun c => code c <? 128) (chars s).
End Casing.
Import Casing.

Module Canonical.
(** The row that [OrganizeData] builds for a time [t] and a speed [v] at
    [location]. *)
Definition canonical (location : string) (t : datetime) (v : json) : row :=
  mk_row location t (nth (Z.to_nat (weekday t)) DOTW "")
         (Spec.hour_label (hour t)) v.

Definition canonical_rows (location : string) (times : list datetime)
    (speeds : list json) : list row :=
  map (fun tv => canonical location (fst tv) (snd tv)) (combine times speeds).

(** An [int] that fits the 64-bit integers of a frame's column, and a
    [float]. *)
Definition int64 (v : json) : Prop :=
  exists z, v = JInt z /\ - 2 ^ 63 <= z < 2 ^ 63.

Definition is_float (v : json) : Prop := exists m e, v = JFloat m e.

(** A payload as the provider sends it: the time texts are ASCII, and
    the wind speeds are all ints or all floats, so that the column
    pandas builds from them holds them as they are. *)
Definition plain_payload (wind_dict : json) : Prop :=
  forall model_data items,
    getitem wind_dict "model_data" = Return model_data ->
    iter model_data = Return items ->
    (forall texts s,
       comprehension (fun x => getitem x "model_time_local") items = Return texts ->
       In (JString s) texts -> Casing.is_ascii s = true) /\
    (forall speeds,
       comprehension (fun x => getitem x "wind_speed") items = Return speeds ->
       Forall int64 speeds \/ Forall is_float speeds).

(** The exceptions that [OrganizeData] can raise on [wind_dict]. *)
Definition expected_error (wind_dict : json) (e : exn) : Prop :=
  e = TypeError \/ e = ValueError \/
  e = KeyError (JString "model_data") \/
  e = KeyError (JString "model_time_local") \/
  e = KeyError (JString "wind_speed") \/
  e = KeyError (JString "spot_id") \/
  exists location_id, getitem wind_dict "spot_id" = Return location_id /\
                      e = KeyError location_id.
End Canonical.
Import Canonical.

Module Caller.
(** A caller that polls: one [GetData] after the other on the same
    instance, each with the transport of its moment; an exception ends
    that call only. *)
Fixpoint poll (calls : list ((Z -> outcome string) * string)) (self : scraper)
  : scraper :=
  match calls with
  | [] => self
  | (soup, location) :: rest => poll rest (snd (GetData soup location self))
  end.

(** The key on which the store is de-duplicated. *)
Definition key (r : row) : string * datetime := (Location r, DateTime r).

(** The date of the first row of [df] that bears [label]. *)
Definition first_date (df : DataFrame) (label : string) : option (Z * Z * Z) :=
  match find (fun ir => String.eqb (Weekday (snd ir)) label) df with
  | Some (_, r) => Some (Spec.date r)
  | None => None
  end.

Definition date_eqb (a b : Z * Z * Z) : bool :=
  let '(y, m, d) := a in
  let '(y', m', d') := b in
  (y =? y') && (m =? m') && (d =? d').

(** The rows that lie on the first date of their weekday label. *)
Definition first_dates_only (df : DataFrame) : DataFrame :=
  filter (fun ir =>
            match first_date df (Weekday (snd ir)) with
            | Some d => date_eqb (Spec.date (snd ir)) d
            | None => true
            end) df.
End Caller.
Import Caller.

(** ** Proof support *)

(** What [wind_frame] guarantees of each row it builds for [location]. *)
Definition row_built (location : string) (r : row) : Prop :=
  Location r = location /\
  valid (DateTime r) = true /\
  list_getitem DOTW (weekday (DateTime r)) = Return (Weekday r) /\
  Hour r = strip_leading_zero (strftime_Ip (DateTime r)).

(** Splits a successful sequence of binds into its successful steps. *)
Ltac bind_inv H :=
  repeat match type of H with
         | bind ?m _ = Return _ =>
             let E := fresh "E" in
             destruct m eqn:E; simpl in H; [|discriminate H]
         end.

(** * Properties *)

(** ** Results and containers *)

Section Containers.

Context {K V : Type}.
Variable is_k : K -> bool.

Let step (found : option V) (kv : K * V) : option V :=
  if is_k (fst kv) then Some (snd kv) else found.

Lemma dict_get_fold_none (d : list (K * V)) (found : option V) :
  (forall kv, In kv d -> is_k (fst kv) = false) ->
  fold_left step d found = found.
Proof.
  revert found; induction d as [|kv d IH]; intros found Hd; simpl.
  - reflexivity.
  - rewrite IH by (intros; apply Hd; now right).
    unfold step. now rewrite (Hd kv) by now left.
Qed.

Lemma dict_get_fold_some (d : list (K * V)) (found : option V) (v : V) :
  fold_left step d found = Some v ->
  found = Some v \/ exists k, In (k, v) d /\ is_k k = true.
Proof.
  revert found; induction d as [|[k v'] d IH]; intros found H; simpl in H.
  - now left.
  - destruct (IH _ H) as [Hs | (k0 & Hin & Hk)].
    + unfold step in Hs; simpl in Hs.
      destruct (is_k k) eqn:Ek.
      * injection Hs as ->. right. exists k. split; [now left | assumption].
      * now left.
    + right. exists k0. split; [now right | assumption].
Qed.

Lemma dict_get_none (d : list (K * V)) :
  (forall kv, In kv d -> is_k (fst kv) = false) -> dict_get is_k d = None.
Proof. intros H. unfold dict_get. now apply dict_get_fold_none. Qed.

Lemma dict_get_some (d : list (K * V)) (v : V) :
  dict_get is_k d = Some v -> exists k, In (k, v) d /\ is_k k = true.
Proof.
  intros H. unfold dict_get in H.
  destruct (dict_get_fold_some _ _ _ H) as [Hn | Hex]; [discriminate | exact Hex].
Qed.

End Containers.

(** ** The registry *)

Lemma registry_entries (name : string) (id : Z) :
  In (name, id) LOCATION_LOOKUP ->
  (name, id) = ("3Rd Ave Channel", 1374) \/
  (name, id) = ("Anita Rock-Crissy Field", 411) \/
  (name, id) = ("Palo Alto", 425) \/
  (name, id) = ("Coyote Point", 408).
Proof.
  unfold LOCATION_LOOKUP; simpl.
  intros [H | [H | [H | [H | []]]]]; symmetry in H; tauto.
Qed.

Lemma registry_forth (name : string) (id : Z) :
  In (name, id) LOCATION_LOOKUP ->
  title name = name /\ spot_id_of name = Return id /\
  location_of (JInt id) = Return name.
Proof.
  intros H.
  destruct (registry_entries _ _ H) as [E | [E | [E | E]]];
    injection E as -> ->; repeat split; reflexivity.
Qed.

Lemma inv_map_entries (id : Z) (name : string) :
  In (id, name) inv_map <-> In (name, id) LOCATION_LOOKUP.
Proof.
  unfold inv_map. rewrite in_map_iff. split.
  - intros ([n i] & E & Hin). simpl in E. now injection E as <- <-.
  - intros Hin. now exists (name, id).
Qed.

(** C9.  The registry is a bijection between its names and its spot
    identifiers, and the two lookups invert each other: a listed name is
    its own title-cased form, resolves to its identifier, and the
    identifier resolves back to the name; whatever name resolves, its
    identifier resolves back to the title-cased name, and whatever
    identifier resolves, its name resolves back to it.  A name whose
    title-cased form is not listed and an identifier that is not listed
    both fail with a [KeyError], the code's unknown-location failure. *)
Theorem registry_round_trip :
  NoDup (map fst LOCATION_LOOKUP) /\ NoDup (map snd LOCATION_LOOKUP) /\
  (forall name id, In (name, id) LOCATION_LOOKUP ->
     title name = name /\ spot_id_of name = Return id /\
     location_of (JInt id) = Return name) /\
  (forall name id, spot_id_of name = Return id ->
     location_of (JInt id) = Return (title name)) /\
  (forall id name, location_of (JInt id) = Return name ->
     spot_id_of name = Return id) /\
  (forall name, (forall id, ~ In (title name, id) LOCATION_LOOKUP) ->
     spot_id_of name = Raise (KeyError (JString (title name)))) /\
  (forall id, (forall name, ~ In (name, id) LOCATION_LOOKUP) ->
     location_of (JInt id) = Raise (KeyError (JInt id))).
Proof.
  split; [|split; [|split; [|split; [|split; [|split]]]]].
  - simpl. repeat constructor; simpl; intuition discriminate.
  - simpl. repeat constructor; simpl; intuition discriminate.
  - exact registry_forth.
  - intros name id H. unfold spot_id_of in H.
    destruct (dict_get _ LOCATION_LOOKUP) as [id'|] eqn:E; [|discriminate].
    injection H as ->.
    apply dict_get_some in E. destruct E as (k & Hin & Hk).
    apply String.eqb_eq in Hk. subst k.
    now apply registry_forth in Hin.
  - intros id name H. unfold location_of in H.
    destruct (dict_get _ inv_map) as [n|] eqn:E; [|discriminate].
    injection H as ->.
    apply dict_get_some in E. destruct E as (k & Hin & Hk).
    simpl in Hk. apply Z.eqb_eq in Hk. subst k.
    apply inv_map_entries in Hin. now apply registry_forth in Hin.
  - intros name H. unfold spot_id_of.
    rewrite dict_get_none; [reflexivity|].
    intros [k v] Hin. simpl. apply String.eqb_neq. intros E. subst k.
    exact (H v Hin).
  - intros id H. unfold location_of.
    rewrite dict_get_none; [reflexivity|].
    intros [k v] Hin. simpl. apply Z.eqb_neq. intros E. subst k.
    apply inv_map_entries in Hin. exact (H v Hin).
Qed.

Lemma registry_round_trip_witness :
  In ("Palo Alto", 425) LOCATION_LOOKUP /\
  (title "Palo Alto" = "Palo Alto" /\ spot_id_of "Palo Alto" = Return 425 /\
   location_of (JInt 425) = Return "Palo Alto") /\
  location_of (JInt 425) = Return (title "palo alto") /\
  spot_id_of "Coyote Point" = Return 408 /\
  spot_id_of "Atlantis" = Raise (KeyError (JString (title "Atlantis"))) /\
  location_of (JInt 999) = Raise (KeyError (JInt 999)).
Proof.
  destruct registry_round_trip as (_ & _ & Hforth & Hname & Hid & Hno_name & Hno_id).
  assert (Hin : In ("Palo Alto", 425) LOCATION_LOOKUP) by (simpl; tauto).
  split; [exact Hin|].
  split; [exact (Hforth "Palo Alto" 425 Hin)|].
  split; [apply (Hname "palo alto" 425); reflexivity|].
  split; [apply (Hid 408 "Coyote Point"); reflexivity|].
  split.
  - apply (Hno_name "Atlantis"). intros id Hin'.
    apply registry_entries in Hin'. intuition discriminate.
  - apply (Hno_id 999). intros name Hin'.
    apply registry_entries in Hin'. intuition discriminate.
Defined.

(** ** Extraction of the payload *)

Lemma find_from_absent (c : ascii) (l : list ascii) (i : Z) :
  ~ In c l -> find_from c i l = None.
Proof.
  revert i; induction l as [|x l IH]; intros i H; simpl.
  - reflexivity.
  - destruct (Ascii.eqb_spec x c) as [-> | _].
    + exfalso. apply H. now left.
    + apply IH. intros Hin. apply H. now right.
Qed.

Lemma rfind_from_absent (c : ascii) (l : list ascii) (i : Z) :
  ~ In c l -> rfind_from c i l = None.
Proof.
  revert i; induction l as [|x l IH]; intros i H; simpl.
  - reflexivity.
  - rewrite IH by (intros Hin; apply H; now right).
    destruct (Ascii.eqb_spec x c) as [-> | _]; [|reflexivity].
    exfalso. apply H. now left.
Qed.

Lemma find_from_first (c : ascii) (l : list ascii) (n : nat) (i : Z) :
  Spec.first_at c l n -> find_from c i l = Some (i + Z.of_nat n).
Proof.
  revert n i; induction l as [|x l IH]; intros n i [Hn Hbefore].
  - destruct n; discriminate.
  - simpl. destruct n as [|n].
    + simpl in Hn. injection Hn as ->. rewrite Ascii.eqb_refl.
      f_equal. lia.
    + destruct (Ascii.eqb_spec x c) as [-> | _].
      * exfalso. apply (Hbefore 0%nat); [lia | reflexivity].
      * rewrite (IH n (i + 1)).
        -- f_equal. lia.
        -- split; [exact Hn|].
           intros k Hk. apply (Hbefore (S k)). lia.
Qed.

Lemma rfind_from_last (c : ascii) (l : list ascii) (n : nat) (i : Z) :
  Spec.last_at c l n -> rfind_from c i l = Some (i + Z.of_nat n).
Proof.
  revert n i; induction l as [|x l IH]; intros n i [Hn Hafter].
  - destruct n; discriminate.
  - simpl. destruct n as [|n].
    + simpl in Hn. injection Hn as ->.
      rewrite rfind_from_absent.
      * rewrite Ascii.eqb_refl. f_equal. lia.
      * intros Hin. apply In_nth_error in Hin. destruct Hin as [k Hk].
        apply (Hafter (S k)); [lia | exact Hk].
    + rewrite (IH n (i + 1)).
      * f_equal. lia.
      * split; [exact Hn|].
        intros k Hk. apply (Hafter (S k)). lia.
Qed.

Lemma find_from_bounds (c : ascii) (l : list ascii) (i k : Z) :
  find_from c i l = Some k -> i <= k < i + Z.of_nat (List.length l).
Proof.
  revert i; induction l as [|x l IH]; intros i H; simpl in H.
  - discriminate.
  - change (List.length (x :: l)) with (S (List.length l)).
    destruct (Ascii.eqb x c).
    + injection H as <-. lia.
    + apply IH in H. lia.
Qed.

Lemma chars_of_chars (l : list ascii) : chars (of_chars l) = l.
Proof. apply list_ascii_of_string_of_list_ascii. Qed.

Lemma of_chars_chars (s : string) : of_chars (chars s) = s.
Proof. apply string_of_list_ascii_of_string. Qed.

Lemma chars_substring (s : string) (n m : nat) :
  chars (String.substring n m s) = firstn m (skipn n (chars s)).
Proof.
  revert n m; induction s as [|c s IH]; intros n m.
  - destruct n, m; reflexivity.
  - destruct n as [|n].
    + destruct m as [|m]; simpl; [reflexivity|].
      f_equal. apply (IH 0%nat m).
    + simpl. apply IH.
Qed.

Lemma chars_length (s : string) : List.length (chars s) = String.length s.
Proof. induction s; simpl; congruence. Qed.

(** A slice whose stop is not after its start is empty. *)
Lemma slice_empty (s : string) (a b : Z) :
  0 <= a -> 0 <= b <= a -> slice s (Some a) (Some b) = "".
Proof.
  intros Ha Hb. unfold slice, slice_list, adjust.
  destruct (Z.ltb_spec a 0); [lia|]. destruct (Z.ltb_spec b 0); [lia|].
  replace (Z.to_nat _) with 0%nat by lia. reflexivity.
Qed.

(** A slice between two positions of the text is the span from the
    first to the one before the second. *)
Lemma slice_span (s : string) (i j : nat) :
  (i <= j < String.length s)%nat ->
  slice s (Some (Z.of_nat i)) (Some (Z.of_nat j + 1)) = Spec.span s i j.
Proof.
  intros H. unfold slice, slice_list, adjust, Spec.span.
  rewrite <- (of_chars_chars (substring _ _ _)), chars_substring.
  rewrite chars_length.
  destruct (Z.ltb_spec (Z.of_nat i) 0); [lia|].
  destruct (Z.ltb_spec (Z.of_nat j + 1) 0); [lia|].
  f_equal. f_equal; [|f_equal]; lia.
Qed.

Lemma json_loads_empty : json_loads "" = Raise JSONDecodeError.
Proof. reflexivity. Qed.

Lemma extract_at (s : string) (i j : nat) :
  Spec.first_at "{" (chars s) i -> Spec.last_at "}" (chars s) j ->
  extract_wind_dict s =
  json_loads (slice s (Some (Z.of_nat i)) (Some (Z.of_nat j + 1))).
Proof.
  intros Hi Hj. unfold extract_wind_dict, index, rfind.
  rewrite (find_from_first _ _ _ 0 Hi), (rfind_from_last _ _ _ 0 Hj).
  reflexivity.
Qed.

(** C6.  [extract_wind_dict] decodes the text from the first opening
    brace to the last closing brace, both included; the callback text
    with the object [{"a": 1}] inside yields that object.  It raises
    when there is no opening brace ([ValueError] of [index]), when there
    is no closing brace, when the last closing brace comes before the
    first opening brace (the slice is then empty and the decoder rejects
    it), and when the decoder rejects the span. *)
Theorem extract_first_to_last_brace :
  extract_wind_dict (dq "jQuery123({'a':1});") = Return (JObject [("a", JInt 1)]) /\
  (forall s i j,
     Spec.first_at "{" (chars s) i -> Spec.last_at "}" (chars s) j -> (i <= j)%nat ->
     extract_wind_dict s = json_loads (Spec.span s i j)) /\
  (forall s, ~ In "{"%char (chars s) -> extract_wind_dict s = Raise ValueError) /\
  (forall s, ~ In "}"%char (chars s) ->
     extract_wind_dict s = Raise ValueError \/
     extract_wind_dict s = Raise JSONDecodeError) /\
  (forall s i j,
     Spec.first_at "{" (chars s) i -> Spec.last_at "}" (chars s) j -> (j < i)%nat ->
     extract_wind_dict s = Raise JSONDecodeError) /\
  (forall s i j e,
     Spec.first_at "{" (chars s) i -> Spec.last_at "}" (chars s) j -> (i <= j)%nat ->
     json_loads (Spec.span s i j) = Raise e -> extract_wind_dict s = Raise e).
Proof.
  assert (Hspan : forall s i j,
     Spec.first_at "{" (chars s) i -> Spec.last_at "}" (chars s) j -> (i <= j)%nat ->
     extract_wind_dict s = json_loads (Spec.span s i j)).
  { intros s i j Hi Hj Hij. rewrite (extract_at s i j Hi Hj).
    rewrite slice_span; [reflexivity|].
    split; [exact Hij|]. rewrite <- chars_length.
    apply nth_error_Some. destruct Hj as [Hj _]. now rewrite Hj. }
  split; [reflexivity|]. split; [exact Hspan|].
  split; [|split; [|split]].
  - intros s H. unfold extract_wind_dict, index.
    now rewrite find_from_absent.
  - intros s H. unfold extract_wind_dict, index, rfind.
    rewrite (rfind_from_absent _ _ _ H).
    destruct (find_from "{" 0 (chars s)) as [k|] eqn:E; [right | now left].
    simpl. apply find_from_bounds in E.
    rewrite slice_empty by lia. reflexivity.
  - intros s i j Hi Hj Hji. rewrite (extract_at s i j Hi Hj).
    rewrite slice_empty by lia. reflexivity.
  - intros s i j e Hi Hj Hij He. now rewrite (Hspan s i j Hi Hj Hij).
Qed.

Lemma rfind_from_bounds (c : ascii) (l : list ascii) (i k : Z) :
  rfind_from c i l = Some k -> i <= k < i + Z.of_nat (List.length l).
Proof.
  revert i; induction l as [|x l IH]; intros i H; simpl in H.
  - discriminate.
  - change (List.length (x :: l)) with (S (List.length l)).
    destruct (rfind_from c (i + 1) l) as [j|] eqn:E.
    + injection H as <-. apply IH in E. lia.
    + destruct (Ascii.eqb x c); [|discriminate]. injection H as <-. lia.
Qed.

Lemma rfind_from_none (c : ascii) (l : list ascii) (i : Z) :
  rfind_from c i l = None -> ~ In c l.
Proof.
  revert i; induction l as [|x l IH]; intros i H; simpl in *.
  - tauto.
  - destruct (rfind_from c (i + 1) l) eqn:E; [discriminate|].
    destruct (Ascii.eqb_spec x c) as [|Hx]; [discriminate|].
    intros [Hc | Hin]; [contradiction | exact (IH _ E Hin)].
Qed.

(** The position that [find_from] reports is the first one. *)
Lemma first_at_of_find (c : ascii) (l : list ascii) (n : nat) (i : Z) :
  find_from c i l = Some (i + Z.of_nat n) -> Spec.first_at c l n.
Proof.
  revert n i; induction l as [|x l IH]; intros n i H; simpl in H.
  - discriminate.
  - destruct (Ascii.eqb_spec x c) as [-> | Hx].
    + injection H as H. assert (n = 0%nat) by lia. subst n.
      split; [reflexivity | intros k Hk; lia].
    + pose proof (find_from_bounds _ _ _ _ H) as Hb.
      destruct n as [|n]; [lia|].
      replace (i + Z.of_nat (S n)) with (i + 1 + Z.of_nat n) in H by lia.
      apply IH in H. destruct H as [Hn Hbefore].
      split; [exact Hn|].
      intros [|k] Hk; simpl.
      * congruence.
      * apply Hbefore. lia.
Qed.

(** The position that [rfind_from] reports is the last one. *)
Lemma last_at_of_rfind (c : ascii) (l : list ascii) (n : nat) (i : Z) :
  rfind_from c i l = Some (i + Z.of_nat n) -> Spec.last_at c l n.
Proof.
  revert n i; induction l as [|x l IH]; intros n i H; simpl in H.
  - discriminate.
  - destruct (rfind_from c (i + 1) l) as [j|] eqn:E.
    + injection H as ->. pose proof (rfind_from_bounds _ _ _ _ E) as Hb.
      destruct n as [|n]; [lia|].
      replace (i + Z.of_nat (S n)) with (i + 1 + Z.of_nat n) in E by lia.
      apply IH in E. destruct E as [Hn Hafter].
      split; [exact Hn|].
      intros [|k] Hk; [lia|]. simpl. apply Hafter. lia.
    + destruct (Ascii.eqb_spec x c) as [-> | Hx]; [|discriminate].
      injection H as H. assert (n = 0%nat) by lia. subst n.
      split; [reflexivity|].
      intros [|k] Hk; [lia|]. simpl. intros Hc.
      apply nth_error_In in Hc. exact (rfind_from_none _ _ _ E Hc).
Qed.

Lemma extract_first_to_last_brace_witness :
  extract_wind_dict (dq "jQuery123({'a':1});") =
    json_loads (Spec.span (dq "jQuery123({'a':1});") 10 16) /\
  extract_wind_dict "jQuery123();" = Raise ValueError /\
  (extract_wind_dict "jQuery123({);" = Raise ValueError \/
   extract_wind_dict "jQuery123({);" = Raise JSONDecodeError) /\
  extract_wind_dict "}{" = Raise JSONDecodeError /\
  extract_wind_dict "({1});" = Raise JSONDecodeError.
Proof.
  destruct extract_first_to_last_brace
    as (_ & Hspan & Hopen & Hclose & Hbefore & Hinvalid).
  split.
  { apply (Hspan (dq "jQuery123({'a':1});") 10%nat 16%nat);
      [ apply (first_at_of_find _ _ _ 0); reflexivity
      | apply (last_at_of_rfind _ _ _ 0); reflexivity
      | lia ]. }
  split.
  { apply (Hopen "jQuery123();"). cbn. intuition discriminate. }
  split.
  { apply (Hclose "jQuery123({);"). cbn. intuition discriminate. }
  split.
  { apply (Hbefore "}{" 1%nat 0%nat);
      [ apply (first_at_of_find _ _ _ 0); reflexivity
      | apply (last_at_of_rfind _ _ _ 0); reflexivity
      | lia ]. }
  apply (Hinvalid "({1});" 1%nat 3%nat JSONDecodeError);
    [ apply (first_at_of_find _ _ _ 0); reflexivity
    | apply (last_at_of_rfind _ _ _ 0); reflexivity
    | lia
    | reflexivity ].
Defined.

(** ** [GetData] and the instance *)

(** [GetData], stage by stage. *)
Lemma GetData_stages (soup : Z -> outcome string) (location : string) (self : scraper) :
  GetData soup location self =
  match spot_id_of location with
  | Raise e => (Raise e, self)
  | Return spot_id =>
      match soup spot_id with
      | Raise e => (Raise e, self)
      | Return soup_text =>
          match extract_wind_dict soup_text with
          | Raise e => (Raise e, self)
          | Return wind_dict =>
              match OrganizeData wind_dict with
              | Raise e => (Raise e, mk_scraper (data self) (Some wind_dict))
              | Return df_wind =>
                  (Return df_wind,
                   mk_scraper
                     (Some match data self with
                           | None => df_wind
                           | Some current => drop_duplicates current
                           end)
                     (Some wind_dict))
              end
          end
      end
  end.
Proof.
  unfold GetData, mbind, lift, set_dict, get_data, set_data, mret.
  destruct (spot_id_of location) as [spot_id|e]; [|reflexivity].
  destruct (soup spot_id) as [soup_text|e]; [|reflexivity].
  destruct (extract_wind_dict soup_text) as [wind_dict|e]; [|reflexivity].
  destruct (OrganizeData wind_dict) as [df_wind|e]; [|reflexivity].
  simpl. destruct (data self); reflexivity.
Qed.

(** C5.  A call of [GetData] that raises, at whatever stage (the lookup
    of the name, the transport, the extraction of the payload, or
    [OrganizeData] with its own lookup of [spot_id] and its parsing of
    the times), leaves the store [data] as it was. *)
Theorem failed_cycle_keeps_store
    (soup : Z -> outcome string) (location : string) (self self' : scraper) (e : exn) :
  GetData soup location self = (Raise e, self') -> data self' = data self.
Proof.
  rewrite GetData_stages.
  destruct (spot_id_of location) as [spot_id|e1];
    [|intros H; injection H as _ <-; reflexivity].
  destruct (soup spot_id) as [soup_text|e1];
    [|intros H; injection H as _ <-; reflexivity].
  destruct (extract_wind_dict soup_text) as [wind_dict|e1];
    [|intros H; injection H as _ <-; reflexivity].
  destruct (OrganizeData wind_dict) as [df_wind|e1]; [discriminate|].
  intros H; injection H as _ <-. reflexivity.
Qed.

Lemma failed_cycle_keeps_store_witness :
  data (fetch_once palo_alto_10) = Some [(0%nat, at_T (JInt 10))] /\
  (let after := snd (GetData (served unknown_spot) "Palo Alto" (fetch_once palo_alto_10)) in
   data after = data (fetch_once palo_alto_10)) /\
  (let after := snd (GetData (served bad_time) "Palo Alto" (fetch_once palo_alto_10)) in
   data after = data (fetch_once palo_alto_10)) /\
  (let after := snd (GetData (served palo_alto_12) "Atlantis" (fetch_once palo_alto_10)) in
   data after = data (fetch_once palo_alto_10)).
Proof.
  split; [reflexivity|].
  split; [|split].
  - apply (failed_cycle_keeps_store (served unknown_spot) "Palo Alto"
             (fetch_once palo_alto_10) _ (KeyError (JInt 999))).
    reflexivity.
  - apply (failed_cycle_keeps_store (served bad_time) "Palo Alto"
             (fetch_once palo_alto_10) _ ValueError).
    reflexivity.
  - apply (failed_cycle_keeps_store (served palo_alto_12) "Atlantis"
             (fetch_once palo_alto_10) _ (KeyError (JString "Atlantis"))).
    reflexivity.
Defined.

(** C10.  [GetData] assigns the decoded payload to the field [dict]
    before it calls [OrganizeData]: when [OrganizeData] raises, the
    instance is left with the new payload in [dict] and with the store
    [data] it had. *)
Theorem payload_kept_when_normalisation_fails
    (soup : Z -> outcome string) (location : string) (self : scraper)
    (spot_id : Z) (soup_text : string) (wind_dict : json) (e : exn) :
  spot_id_of location = Return spot_id ->
  soup spot_id = Return soup_text ->
  extract_wind_dict soup_text = Return wind_dict ->
  OrganizeData wind_dict = Raise e ->
  GetData soup location self = (Raise e, mk_scraper (data self) (Some wind_dict)).
Proof.
  intros Hid Hsoup Hdict Hfail.
  now rewrite GetData_stages, Hid, Hsoup, Hdict, Hfail.
Qed.

Lemma payload_kept_when_normalisation_fails_witness :
  GetData (served unknown_spot) "Palo Alto" (fetch_once palo_alto_10) =
    (Raise (KeyError (JInt 999)),
     mk_scraper (Some [(0%nat, at_T (JInt 10))])
       (Some (payload 999 [("2024-03-07 09:00:00-0800", 12)]))) /\
  GetData (served bad_time) "Palo Alto" (fetch_once palo_alto_10) =
    (Raise ValueError,
     mk_scraper (Some [(0%nat, at_T (JInt 10))])
       (Some (payload 425 [("yesterday at noon", 12)]))).
Proof.
  split.
  - apply (payload_kept_when_normalisation_fails (served unknown_spot) "Palo Alto"
             (fetch_once palo_alto_10) 425 unknown_spot); reflexivity.
  - apply (payload_kept_when_normalisation_fails (served bad_time) "Palo Alto"
             (fetch_once palo_alto_10) 425 bad_time); reflexivity.
Defined.

(** Once the store holds a frame, a successful [GetData] puts in its
    place that same frame without its duplicates: the frame that
    [append] built from it and the new rows is not used. *)
Lemma GetData_on_store (soup : Z -> outcome string) (location : string)
    (self self' : scraper) (current df_wind : DataFrame) :
  data self = Some current ->
  GetData soup location self = (Return df_wind, self') ->
  data self' = Some (drop_duplicates current).
Proof.
  intros Hdata. rewrite GetData_stages, Hdata.
  destruct (spot_id_of location) as [spot_id|e1]; [|discriminate].
  destruct (soup spot_id) as [soup_text|e1]; [|discriminate].
  destruct (extract_wind_dict soup_text) as [wind_dict|e1]; [|discriminate].
  destruct (OrganizeData wind_dict) as [df|e1]; [|discriminate].
  intros H; injection H as _ <-. reflexivity.
Qed.

(** C1.  The code at the claim's input: the first fetch for Palo Alto
    yields one record at T with speed 10 and the second one record at
    the same T with speed 12.  The second call normalises its record and
    returns it, and the store still holds the record of the first fetch,
    with speed 10. *)
Theorem second_fetch_not_merged :
  data (fetch_once palo_alto_10) = Some [(0%nat, at_T (JInt 10))] /\
  fst (GetData (served palo_alto_12) "Palo Alto" (fetch_once palo_alto_10)) =
    Return [(0%nat, at_T (JInt 12))] /\
  data (fetch_twice palo_alto_10 palo_alto_12) = Some [(0%nat, at_T (JInt 10))].
Proof. repeat split. Qed.

(** C8.  The code on a payload in which one local time occurs twice: the
    first fetch stores both records, and a second fetch of the same
    payload leaves one of them. *)
Theorem repeated_fetch_changes_store :
  data (fetch_once palo_alto_autumn) =
    Some [(0%nat, at_1AM (JInt 10)); (1%nat, at_1AM (JInt 12))] /\
  data (fetch_twice palo_alto_autumn palo_alto_autumn) =
    Some [(0%nat, at_1AM (JInt 12))] /\
  option_map records (data (fetch_twice palo_alto_autumn palo_alto_autumn)) <>
  option_map records (data (fetch_once palo_alto_autumn)).
Proof. split; [reflexivity|]. split; [reflexivity | discriminate]. Qed.

(** ** Normalisation of the records *)

Lemma comprehension_Forall2 {A B : Type} (f : A -> outcome B) (l : list A) (ys : list B) :
  comprehension f l = Return ys -> Forall2 (fun x y => f x = Return y) l ys.
Proof.
  revert ys; induction l as [|x l IH]; intros ys H; simpl in H.
  - injection H as <-. constructor.
  - bind_inv H. injection H as <-. constructor; [assumption | now apply IH].
Qed.

Lemma comprehension_map_Forall2 {A B C : Type} (g : A -> B) (f : B -> outcome C)
    (l : list A) (ys : list C) :
  comprehension f (map g l) = Return ys ->
  Forall2 (fun a y => f (g a) = Return y) l ys.
Proof.
  revert ys; induction l as [|x l IH]; intros ys H; simpl in H.
  - injection H as <-. constructor.
  - bind_inv H. injection H as <-. constructor; [assumption | now apply IH].
Qed.

Lemma comprehension_Forall {A B : Type} (f : A -> outcome B) (P : B -> Prop)
    (l : list A) (ys : list B) :
  (forall x y, f x = Return y -> P y) ->
  comprehension f l = Return ys -> Forall P ys.
Proof.
  intros HP H. apply comprehension_Forall2 in H.
  induction H; constructor; eauto.
Qed.

Lemma strptime_valid (s : string) (t : datetime) :
  strptime s = Return t -> valid t = true.
Proof.
  unfold strptime. destruct (match_tokens format_regex (chars s)) as [[gs rest]|];
    [|discriminate].
  do 6 (destruct gs as [|? gs]; [discriminate|]).
  destruct gs; [|discriminate]. destruct rest; [|discriminate].
  match goal with |- context [valid ?x] => destruct (valid x) eqn:E end;
    [|discriminate].
  intros H. injection H as <-. exact E.
Qed.

Lemma parse_local_time_valid (x : json) (t : datetime) :
  parse_local_time x = Return t -> valid t = true.
Proof.
  destruct x; try discriminate. simpl. apply strptime_valid.
Qed.

Lemma valid_bounds (t : datetime) :
  valid t = true ->
  1 <= year t <= 9999 /\ 1 <= month t <= 12 /\
  1 <= day t <= days_in_month (year t) (month t) /\
  0 <= hour t <= 23 /\ 0 <= minute t <= 59 /\ 0 <= second t <= 59.
Proof.
  unfold valid. rewrite !andb_true_iff, !Z.leb_le. tauto.
Qed.

Lemma weekday_range (t : datetime) : 0 <= weekday t < 7.
Proof. unfold weekday. apply Z.mod_pos_bound. lia. Qed.

(** The label that the code builds, [strftime] and then the removal of
    a leading zero, is the hour label of the specification. *)
Lemma hour_label_refines (t : datetime) :
  0 <= hour t <= 23 ->
  strip_leading_zero (strftime_Ip t) = Spec.hour_label (hour t).
Proof.
  intros H. unfold strftime_Ip, Spec.hour_label, Spec.clock12.
  assert (E : exists n : nat, hour t = Z.of_nat n /\ (n < 24)%nat).
  { exists (Z.to_nat (hour t)). lia. }
  destruct E as (n & -> & Hn).
  do 24 (destruct n as [|n]; [reflexivity|]). lia.
Qed.

Lemma zip_columns_built (location : string) (times : list datetime)
    (labels : list string) (speeds : list json) :
  Forall (fun t => valid t = true) times ->
  Forall2 (fun t w => list_getitem DOTW (weekday t) = Return w) times labels ->
  Forall (row_built location)
    (zip_columns location times labels
       (map strip_leading_zero (map strftime_Ip times)) speeds).
Proof.
  intros Hvalid Hlabels. revert speeds.
  induction Hlabels as [|t w times labels Hw Hrest IH]; intros speeds.
  - constructor.
  - inversion Hvalid as [|? ? Ht Hts]; subst.
    destruct speeds as [|v speeds]; simpl; [constructor|].
    constructor; [|now apply IH].
    unfold row_built; simpl. auto.
Qed.

Lemma wind_frame_rows (wind_dict : json) (df : DataFrame) :
  wind_frame wind_dict = Return df ->
  exists location rows, df = range_index rows /\ Forall (row_built location) rows.
Proof.
  intros H. unfold wind_frame in H. bind_inv H.
  unfold new_frame in H.
  match type of H with (if ?c then _ else _) = _ => destruct c end;
    [|discriminate].
  injection H as <-.
  eexists _, _. split; [reflexivity|].
  apply zip_columns_built.
  - match goal with
    | E : comprehension parse_local_time _ = Return _ |- _ =>
        exact (comprehension_Forall _ _ _ _ parse_local_time_valid E)
    end.
  - match goal with
    | E : comprehension (list_getitem DOTW) _ = Return _ |- _ =>
        now apply comprehension_map_Forall2 in E
    end.
Qed.

Lemma range_index_rows (rows : list row) (i : nat) (r : row) :
  In (i, r) (range_index rows) -> In r rows.
Proof. unfold range_index. apply in_combine_r. Qed.

Lemma drop_incl (df : DataFrame) (labels : list nat) (ir : nat * row) :
  In ir (drop df labels) -> In ir df.
Proof. unfold drop. rewrite filter_In. tauto. Qed.

Lemma OrganizeData_rows (wind_dict : json) (df : DataFrame) :
  OrganizeData wind_dict = Return df ->
  exists df_wind, wind_frame wind_dict = Return df_wind /\
                  forall ir, In ir df -> In ir df_wind.
Proof.
  intros H. unfold OrganizeData in H. bind_inv H.
  unfold drop_repeated_days in H. bind_inv H. injection H as <-.
  eexists. split; [reflexivity|]. intros ir. apply drop_incl.
Qed.

Lemma comprehension_length {A B : Type} (f : A -> outcome B) (l : list A) (ys : list B) :
  comprehension f l = Return ys -> List.length ys = List.length l.
Proof.
  intros H. apply comprehension_Forall2 in H.
  induction H; simpl; congruence.
Qed.

Lemma comprehension_total {A B : Type} (f : A -> outcome B) (g : A -> B) (l : list A) :
  (forall x, In x l -> f x = Return (g x)) -> comprehension f l = Return (map g l).
Proof.
  induction l as [|x l IH]; intros H; simpl; [reflexivity|].
  rewrite (H x (or_introl eq_refl)). simpl.
  rewrite IH by (intros; apply H; now right). reflexivity.
Qed.

Lemma weekday_label (t : datetime) :
  list_getitem DOTW (weekday t) = Return (nth (Z.to_nat (weekday t)) DOTW "").
Proof.
  pose proof (weekday_range t) as Hw.
  assert (E : exists n : nat, weekday t = Z.of_nat n /\ (n < 7)%nat).
  { exists (Z.to_nat (weekday t)). lia. }
  destruct E as (n & -> & Hn).
  do 7 (destruct n as [|n]; [reflexivity|]). lia.
Qed.

Lemma zip_columns_canonical (location : string) (times : list datetime)
    (speeds : list json) :
  Forall (fun t => valid t = true) times ->
  zip_columns location times
    (map (fun w => nth (Z.to_nat w) DOTW "") (map weekday times))
    (map strip_leading_zero (map strftime_Ip times)) speeds =
  canonical_rows location times speeds.
Proof.
  intros Hv. revert speeds. induction Hv as [|t times Ht Hts IH]; intros speeds.
  - reflexivity.
  - destruct speeds as [|v speeds]; [reflexivity|].
    simpl. unfold canonical_rows in *. simpl. rewrite IH. f_equal.
    unfold canonical. f_equal. apply hour_label_refines.
    apply valid_bounds in Ht. tauto.
Qed.

(** When every step of lines 108 to 121 succeeds, the frame is built,
    with one row per record. *)
Lemma wind_frame_intro (wind_dict model_data : json) (items texts speeds : list json)
    (times : list datetime) (location_id : json) (location : string) :
  getitem wind_dict "model_data" = Return model_data ->
  iter model_data = Return items ->
  comprehension (fun x => getitem x "model_time_local") items = Return texts ->
  comprehension (fun x => getitem x "wind_speed") items = Return speeds ->
  comprehension parse_local_time texts = Return times ->
  getitem wind_dict "spot_id" = Return location_id ->
  location_of location_id = Return location ->
  wind_frame wind_dict = Return (range_index (canonical_rows location times speeds)).
Proof.
  intros Hmd Hit Htx Hsp Htm Hid Hloc.
  pose proof (comprehension_length _ _ _ Htx) as Ltx.
  pose proof (comprehension_length _ _ _ Hsp) as Lsp.
  pose proof (comprehension_length _ _ _ Htm) as Ltm.
  unfold wind_frame. rewrite Hmd. simpl. rewrite Hit. simpl. rewrite Htx. simpl.
  rewrite Hsp. simpl. rewrite Htm. simpl.
  rewrite (comprehension_total _ (fun w => nth (Z.to_nat w) DOTW ""));
    [| intros w Hw; apply in_map_iff in Hw;
       destruct Hw as (t & <- & _); apply weekday_label].
  simpl. rewrite Hid. simpl. rewrite Hloc. simpl.
  unfold new_frame. rewrite !length_map.
  replace (List.length speeds) with (List.length times) by congruence.
  rewrite !Nat.eqb_refl.
  cbv beta iota delta [andb]. do 2 f_equal.
  apply zip_columns_canonical.
  eapply comprehension_Forall; [exact parse_local_time_valid | eassumption].
Qed.

Lemma canonical_rows_nth (location : string) (times : list datetime)
    (speeds : list json) (k : nat) (t : datetime) :
  List.length speeds = List.length times ->
  nth_error times k = Some t ->
  exists v, nth_error speeds k = Some v /\
            nth_error (canonical_rows location times speeds) k =
              Some (canonical location t v).
Proof.
  unfold canonical_rows. revert speeds k.
  induction times as [|t0 times IH]; intros speeds k Hlen Hk.
  - destruct k; discriminate.
  - destruct speeds as [|v speeds]; [discriminate|].
    destruct k as [|k]; simpl in *.
    + injection Hk as ->. eauto.
    + apply IH; [congruence | exact Hk].
Qed.

Lemma weekday_in_table (t : datetime) :
  nth_error DOTW (Z.to_nat (weekday t)) = Some (nth (Z.to_nat (weekday t)) DOTW "").
Proof.
  pose proof (weekday_range t) as Hw.
  assert (E : exists n : nat, weekday t = Z.of_nat n /\ (n < 7)%nat).
  { exists (Z.to_nat (weekday t)). lia. }
  destruct E as (n & -> & Hn). rewrite Nat2Z.id.
  do 7 (destruct n as [|n]; [reflexivity|]). lia.
Qed.

(** The claim C2 at its own input: the text with the three-character
    offset loses its seconds when five characters are stripped, and the
    format rejects what is left. *)
Lemma three_character_offset_rejected :
  slice "2024-03-07 09:00:00-08" None (Some (-5)) = "2024-03-07 09:00:" /\
  parse_local_time (JString "2024-03-07 09:00:00-08") = Raise ValueError /\
  OrganizeData (payload 425 [("2024-03-07 09:00:00-08", 10)]) = Raise ValueError /\
  OrganizeData (payload 425 [("2024-03-07 00:00:00-08", 10)]) = Raise ValueError /\
  OrganizeData (payload 425 [("2024-03-07 12:00:00-08", 10)]) = Raise ValueError.
Proof. repeat split. Qed.

(** C2, amended.  With the five-character offset that the code strips,
    the text for 9 o'clock on 7 March 2024 is normalised to the time
    2024-03-07 09:00:00 with weekday Thursday and hour label 9AM, the
    text for midnight gets the label 12AM and the text for noon the
    label 12PM. *)
Theorem five_character_offset_normalised :
  OrganizeData (payload 425 [("2024-03-07 09:00:00-0800", 10)]) =
    Return [(0%nat, mk_row "Palo Alto" (mk_datetime 2024 3 7 9 0 0)
                           "Thursday" "9AM" (JInt 10))] /\
  OrganizeData (payload 425 [("2024-03-07 00:00:00-0800", 10)]) =
    Return [(0%nat, mk_row "Palo Alto" (mk_datetime 2024 3 7 0 0 0)
                           "Thursday" "12AM" (JInt 10))] /\
  OrganizeData (payload 425 [("2024-03-07 12:00:00-0800", 10)]) =
    Return [(0%nat, mk_row "Palo Alto" (mk_datetime 2024 3 7 12 0 0)
                           "Thursday" "12PM" (JInt 10))].
Proof. repeat split. Qed.

(** ** Trimming *)

Lemma insert_unique_In (x y : string) (l : list string) :
  In y (insert_unique x l) <-> y = x \/ In y l.
Proof.
  induction l as [|z l IH]; simpl.
  - intuition.
  - destruct (String.compare x z) eqn:E; simpl.
    + apply String.compare_eq_iff in E. subst z. intuition.
    + intuition.
    + rewrite IH. intuition.
Qed.

Lemma np_unique_In (y : string) (l : list string) :
  In y (np_unique l) <-> In y l.
Proof.
  unfold np_unique. induction l as [|x l IH]; simpl.
  - tauto.
  - rewrite insert_unique_In, IH. intuition.
Qed.

Lemma find_filter_head {A : Type} (p : A -> bool) (l : list A) :
  find p l = hd_error (filter p l).
Proof.
  induction l as [|x l IH]; simpl; [reflexivity|].
  destruct (p x); [reflexivity | exact IH].
Qed.

Lemma label_unique (df : DataFrame) (i : nat) (r r' : row) :
  NoDup (map fst df) -> In (i, r) df -> In (i, r') df -> r = r'.
Proof.
  induction df as [|[j q] df IH]; simpl; intros Hnd H1 H2; [contradiction|].
  inversion Hnd as [|? ? Hnot Hnd']; subst.
  destruct H1 as [H1 | H1], H2 as [H2 | H2].
  - congruence.
  - injection H1 as -> ->. exfalso. apply Hnot.
    change i with (fst (i, r')). now apply in_map.
  - injection H2 as -> ->. exfalso. apply Hnot.
    change i with (fst (i, r)). now apply in_map.
  - now apply IH.
Qed.

Lemma first_day_present (df : DataFrame) (i : nat) (r : row) :
  In (i, r) df -> exists d, Spec.first_day df (Weekday r) = Some d.
Proof.
  intros Hin. unfold Spec.first_day.
  destruct (find _ df) as [[j q]|] eqn:E; [eauto|].
  exfalso. apply (find_none _ _ E) in Hin. simpl in Hin.
  now rewrite String.eqb_refl in Hin.
Qed.

(** The loop of [OrganizeData] over labels that all occur in the frame
    does not raise, and it collects the labels of exactly the rows whose
    day of the month is not the first day of their weekday label. *)
Lemma collect_indices_spec (df : DataFrame) (weekdays : list string) (indices : list nat) :
  (forall w, In w weekdays -> exists i r, In (i, r) df /\ Weekday r = w) ->
  exists out,
    collect_indices df weekdays indices = Return out /\
    forall i, In i out <->
              In i indices \/
              exists r, In (i, r) df /\ In (Weekday r) weekdays /\
                        Spec.first_day df (Weekday r) <> Some (day (DateTime r)).
Proof.
  revert indices; induction weekdays as [|w rest IH]; intros indices Hocc.
  - exists indices. split; [reflexivity|].
    intros i. split; [tauto|]. intros [H | (r & _ & [] & _)]. exact H.
  - simpl.
    set (df_temp := filter (fun ir => String.eqb (Weekday (snd ir)) w) df).
    assert (Hfirst : Spec.first_day df w =
                     option_map (fun ir => day (DateTime (snd ir))) (hd_error df_temp)).
    { unfold Spec.first_day. rewrite find_filter_head. fold df_temp.
      destruct df_temp as [|[j q] ?]; reflexivity. }
    destruct df_temp as [|[j first] tail] eqn:Etemp.
    + exfalso. destruct (Hocc w (or_introl eq_refl)) as (i & r & Hin & Hw).
      assert (Hf : In (i, r) df_temp).
      { unfold df_temp. apply filter_In. split; [exact Hin|].
        simpl. rewrite Hw. apply String.eqb_refl. }
      rewrite Etemp in Hf. exact Hf.
    + simpl in Hfirst.
      destruct (IH (indices ++
                    map fst (filter (fun ir => negb (day (DateTime (snd ir)) =?
                                                     day (DateTime first)))
                                    ((j, first) :: tail))))
        as (out & Hout & Hmem).
      { intros w' Hw'. apply Hocc. now right. }
      exists out. split; [exact Hout|].
      intros i. rewrite Hmem, in_app_iff, in_map_iff. clear Hmem Hout IH.
      rewrite <- Etemp.
      split.
      * intros [[H | ([i' r] & Ei & Hfound)] | (r & Hin & Hw & Hd)].
        -- now left.
        -- simpl in Ei. subst i'. right. exists r.
           apply filter_In in Hfound. destruct Hfound as [Htemp Hday].
           unfold df_temp in Htemp. apply filter_In in Htemp.
           destruct Htemp as [Hin Hw]. simpl in Hw, Hday.
           apply String.eqb_eq in Hw.
           split; [exact Hin|]. split; [left; now symmetry|].
           rewrite Hw, Hfirst. intros E. injection E as E.
           rewrite <- E, Z.eqb_refl in Hday. discriminate.
        -- right. exists r. split; [exact Hin|]. split; [now right | exact Hd].
      * intros [H | (r & Hin & [Hw | Hw] & Hd)].
        -- left. now left.
        -- left. right. exists (i, r). split; [reflexivity|].
           apply filter_In. split.
           ++ unfold df_temp. apply filter_In. split; [exact Hin|].
              simpl. rewrite Hw. apply String.eqb_refl.
           ++ simpl. rewrite <- Hw, Hfirst in Hd.
              destruct (Z.eqb_spec (day (DateTime r)) (day (DateTime first))) as [E|];
                [|reflexivity].
              exfalso. apply Hd. now rewrite E.
        -- right. exists r. auto.
Qed.

(** On a frame whose index labels are distinct, lines 129 to 141 compute
    the [trim] of the specification. *)
Lemma drop_repeated_days_trim (df : DataFrame) :
  NoDup (map fst df) -> drop_repeated_days df = Return (Spec.trim df).
Proof.
  intros Hnd. unfold drop_repeated_days.
  destruct (collect_indices_spec df
              (np_unique (map (fun ir => Weekday (snd ir)) df)) [])
    as (out & Hout & Hmem).
  { intros w Hw. apply np_unique_In, in_map_iff in Hw.
    destruct Hw as ([i r] & E & Hin). now exists i, r. }
  rewrite Hout. simpl. f_equal. unfold drop, Spec.trim.
  apply filter_ext_in. intros [i r] Hin. simpl.
  destruct (first_day_present df i r Hin) as (d & Hd). rewrite Hd.
  destruct (Z.eqb_spec (day (DateTime r)) d) as [E | E].
  - apply negb_true_iff.
    destruct (existsb (Nat.eqb i) out) eqn:Ex; [|reflexivity].
    exfalso. apply existsb_exists in Ex. destruct Ex as (i' & Hi' & Ei).
    apply Nat.eqb_eq in Ei. subst i'.
    apply Hmem in Hi'. destruct Hi' as [[] | (r' & Hin' & _ & Hne)].
    rewrite (label_unique df i r' r Hnd Hin' Hin) in Hne.
    apply Hne. now rewrite Hd, E.
  - apply negb_false_iff. apply existsb_exists. exists i.
    split; [|apply Nat.eqb_refl].
    apply Hmem. right. exists r. split; [exact Hin|]. split.
    + apply np_unique_In, in_map_iff. now exists (i, r).
    + rewrite Hd. congruence.
Qed.

Lemma range_index_labels (rows : list row) :
  map fst (range_index rows) = seq 0 (List.length rows).
Proof.
  unfold range_index. generalize 0%nat.
  induction rows as [|r rows IH]; intros n; simpl; [reflexivity|].
  now rewrite IH.
Qed.

Lemma wind_frame_labels (wind_dict : json) (df : DataFrame) :
  wind_frame wind_dict = Return df -> NoDup (map fst df).
Proof.
  intros H. apply wind_frame_rows in H. destruct H as (location & rows & -> & _).
  rewrite range_index_labels. apply seq_NoDup.
Qed.

Lemma OrganizeData_trim (wind_dict : json) (df_wind : DataFrame) :
  wind_frame wind_dict = Return df_wind ->
  OrganizeData wind_dict = Return (Spec.trim df_wind).
Proof.
  intros H. unfold OrganizeData. rewrite H. simpl.
  apply drop_repeated_days_trim. exact (wind_frame_labels _ _ H).
Qed.

Lemma range_index_nth_error (rows : list row) (i : nat) (r : row) :
  nth_error rows i = Some r -> nth_error (range_index rows) i = Some (i, r).
Proof.
  unfold range_index. change i with (0 + i)%nat at 3. generalize 0%nat as n.
  revert i. induction rows as [|x rows IH]; intros i n H.
  - destruct i; discriminate.
  - destruct i as [|i]; simpl in *.
    + injection H as ->. now rewrite Nat.add_0_r.
    + rewrite (IH i (S n) H). do 2 f_equal. lia.
Qed.

(** C7.  For every time that [strptime] accepts, and so for every row
    of the frame [wind_frame] builds and of the frame [OrganizeData]
    returns: the weekday number lies in 0..6 and the weekday label is
    the entry of the seven-element table [DOTW], which starts with
    Monday, at that number (Monday 4 March 2024 has number 0); the hour
    label is the hour on the 12-hour clock in decimal without a leading
    zero, followed without a space by AM or PM, so 9 gives 9AM, midnight
    12AM and noon 12PM.  And every record gets such a row: when the
    steps of [OrganizeData] up to the lookup of the spot succeed on a
    payload with ASCII time texts, the frame is built with one row per
    record, the row at position k holds the time parsed from record k
    with the weekday label and the hour label of that time, and
    [OrganizeData] returns that frame trimmed. *)
Theorem weekday_and_hour_label :
  DOTW = ["Monday"; "Tuesday"; "Wednesday"; "Thursday"; "Friday"; "Saturday"; "Sunday"] /\
  weekday (mk_datetime 2024 3 4 0 0 0) = 0 /\
  (forall s t, strptime s = Return t ->
     0 <= weekday t < 7 /\
     (exists label, list_getitem DOTW (weekday t) = Return label /\
                    nth_error DOTW (Z.to_nat (weekday t)) = Some label) /\
     strip_leading_zero (strftime_Ip t) = Spec.hour_label (hour t)) /\
  (forall wind_dict df i r,
     wind_frame wind_dict = Return df \/ OrganizeData wind_dict = Return df ->
     In (i, r) df ->
     nth_error DOTW (Z.to_nat (weekday (DateTime r))) = Some (Weekday r) /\
     Hour r = Spec.hour_label (hour (DateTime r))) /\
  (forall wind_dict model_data items texts speeds times location_id location,
     getitem wind_dict "model_data" = Return model_data ->
     iter model_data = Return items ->
     comprehension (fun x => getitem x "model_time_local") items = Return texts ->
     (forall s, In (JString s) texts -> is_ascii s = true) ->
     comprehension (fun x => getitem x "wind_speed") items = Return speeds ->
     comprehension parse_local_time texts = Return times ->
     getitem wind_dict "spot_id" = Return location_id ->
     location_of location_id = Return location ->
     exists df,
       wind_frame wind_dict = Return df /\
       OrganizeData wind_dict = Return (Spec.trim df) /\
       List.length df = List.length times /\
       forall k t, nth_error times k = Some t ->
         exists r, nth_error df k = Some (k, r) /\ DateTime r = t /\
                   nth_error DOTW (Z.to_nat (weekday t)) = Some (Weekday r) /\
                   Hour r = Spec.hour_label (hour t)) /\
  Spec.hour_label 9 = "9AM" /\ Spec.hour_label 0 = "12AM" /\
  Spec.hour_label 12 = "12PM".
Proof.
  assert (Hlabel : forall t label,
            list_getitem DOTW (weekday t) = Return label ->
            nth_error DOTW (Z.to_nat (weekday t)) = Some label).
  { intros t label. unfold list_getitem.
    pose proof (weekday_range t) as Hw.
    destruct (Z.ltb_spec (weekday t) 0); [lia|].
    destruct (_ && _); [|discriminate].
    destruct (nth_error DOTW _); [|discriminate]. congruence. }
  split; [reflexivity|]. split; [reflexivity|].
  split; [|split; [|split; [|repeat split]]].
  - intros s t Ht. pose proof (weekday_range t) as Hw.
    split; [exact Hw|]. split.
    + assert (E : exists n : nat, weekday t = Z.of_nat n /\ (n < 7)%nat).
      { exists (Z.to_nat (weekday t)). lia. }
      destruct E as (n & E & Hn). rewrite E.
      do 7 (destruct n as [|n]; [eexists; split; reflexivity|]). lia.
    + apply hour_label_refines. apply strptime_valid in Ht.
      apply valid_bounds in Ht. tauto.
  - intros wind_dict df i r Hdf Hin.
    assert (Hframe : exists df_wind,
               wind_frame wind_dict = Return df_wind /\ In (i, r) df_wind).
    { destruct Hdf as [Hdf | Hdf].
      - now exists df.
      - apply OrganizeData_rows in Hdf. destruct Hdf as (df_wind & Hw & Hsub).
        exists df_wind. auto. }
    destruct Hframe as (df_wind & Hw & Hin').
    apply wind_frame_rows in Hw. destruct Hw as (location & rows & -> & Hrows).
    apply range_index_rows in Hin'.
    rewrite Forall_forall in Hrows. destruct (Hrows r Hin') as (_ & Hv & Hl & Hh).
    split; [now apply Hlabel|].
    rewrite Hh. apply hour_label_refines.
    apply valid_bounds in Hv. tauto.
  - intros wind_dict model_data items texts speeds times location_id location
           Hmd Hit Htx _ Hsp Htm Hid Hloc.
    pose proof (wind_frame_intro _ _ _ _ _ _ _ _ Hmd Hit Htx Hsp Htm Hid Hloc) as Hw.
    assert (Hlen : List.length speeds = List.length times).
    { rewrite (comprehension_length _ _ _ Hsp), (comprehension_length _ _ _ Htm).
      symmetry. exact (comprehension_length _ _ _ Htx). }
    eexists. split; [exact Hw|]. split; [exact (OrganizeData_trim _ _ Hw)|]. split.
    + unfold range_index. rewrite length_combine, length_seq, Nat.min_id.
      unfold canonical_rows. rewrite length_map, length_combine. lia.
    + intros k t Hk.
      destruct (canonical_rows_nth location times speeds k t Hlen Hk)
        as (v & _ & Hrow).
      exists (canonical location t v).
      split; [now apply range_index_nth_error|].
      split; [reflexivity|]. split; [apply weekday_in_table | reflexivity].
Qed.

Lemma weekday_and_hour_label_witness :
  strptime "2024-03-07 09:00:00" = Return (mk_datetime 2024 3 7 9 0 0) /\
  strip_leading_zero (strftime_Ip (mk_datetime 2024 3 7 9 0 0)) = Spec.hour_label 9 /\
  (nth_error DOTW (Z.to_nat (weekday (DateTime (at_T (JInt 10))))) =
     Some (Weekday (at_T (JInt 10))) /\
   Hour (at_T (JInt 10)) = Spec.hour_label (hour (DateTime (at_T (JInt 10))))) /\
  is_ascii "2024-03-07 09:00:00-0800" = true /\
  is_ascii "2024-03-08 00:00:00-0800" = true /\
  exists df,
    wind_frame two_days = Return df /\
    OrganizeData two_days = Return (Spec.trim df) /\
    List.length df = 2%nat /\
    (exists r, nth_error df 0 = Some (0%nat, r) /\
               DateTime r = mk_datetime 2024 3 7 9 0 0 /\
               nth_error DOTW 3 = Some (Weekday r) /\ Hour r = "9AM") /\
    (exists r, nth_error df 1 = Some (1%nat, r) /\
               DateTime r = mk_datetime 2024 3 8 0 0 0 /\
               nth_error DOTW 4 = Some (Weekday r) /\ Hour r = "12AM").
Proof.
  destruct weekday_and_hour_label as (_ & _ & Htime & Hrow & Hbuilt & _).
  split; [reflexivity|]. split.
  { apply (Htime "2024-03-07 09:00:00" (mk_datetime 2024 3 7 9 0 0)). reflexivity. }
  split.
  { apply (Hrow (payload 425 [("2024-03-07 09:00:00-0800", 10)])
                [(0%nat, at_T (JInt 10))] 0%nat (at_T (JInt 10))).
    - right. reflexivity.
    - simpl. left. reflexivity. }
  split; [reflexivity|]. split; [reflexivity|].
  destruct (Hbuilt two_days
              (JArray [JObject [("model_time_local", JString "2024-03-07 09:00:00-0800");
                                ("wind_speed", JInt 10)];
                       JObject [("model_time_local", JString "2024-03-08 00:00:00-0800");
                                ("wind_speed", JInt 12)]])
              [JObject [("model_time_local", JString "2024-03-07 09:00:00-0800");
                        ("wind_speed", JInt 10)];
               JObject [("model_time_local", JString "2024-03-08 00:00:00-0800");
                        ("wind_speed", JInt 12)]]
              [JString "2024-03-07 09:00:00-0800"; JString "2024-03-08 00:00:00-0800"]
              [JInt 10; JInt 12]
              [mk_datetime 2024 3 7 9 0 0; mk_datetime 2024 3 8 0 0 0]
              (JInt 425) "Palo Alto")
    as (df & Hw & Ho & Hlen & Hrows); try reflexivity.
  { intros s [E | [E | []]]; injection E as <-; reflexivity. }
  exists df. split; [exact Hw|]. split; [exact Ho|]. split; [exact Hlen|]. split.
  - exact (Hrows 0%nat (mk_datetime 2024 3 7 9 0 0) eq_refl).
  - exact (Hrows 1%nat (mk_datetime 2024 3 8 0 0 0) eq_refl).
Defined.


(** C4.  [OrganizeData] returns the frame it has built with exactly the
    rows removed whose day of the month differs from that of the first
    row, in frame order, with the same weekday label; every other row
    stays, in order.  On hourly records from Monday 4 March to the third
    hour of Monday 11 March 2024, 24 rows are labelled Monday with day 4
    and 3 with day 11; [OrganizeData] removes those three, the last rows
    of the frame, and keeps the other 168. *)
Theorem trim_removes_later_days_of_a_label :
  (forall wind_dict df_wind,
     wind_frame wind_dict = Return df_wind ->
     OrganizeData wind_dict = Return (Spec.trim df_wind) /\
     forall i r, In (i, r) df_wind ->
       (In (i, r) (Spec.trim df_wind) <->
        Spec.first_day df_wind (Weekday r) = Some (day (DateTime r)))) /\
  wind_frame monday_to_monday = Return monday_frame /\
  List.length monday_frame = 171%nat /\
  filter (fun ir => String.eqb (Weekday (snd ir)) "Monday") monday_frame =
    firstn 24 monday_frame ++ skipn 168 monday_frame /\
  forallb (labelled "Monday" 4) (firstn 24 monday_frame) = true /\
  forallb (labelled "Monday" 11) (skipn 168 monday_frame) = true /\
  OrganizeData monday_to_monday = Return (firstn 168 monday_frame).
Proof.
  split.
  - intros wind_dict df_wind H. split; [now apply OrganizeData_trim|].
    intros i r Hin. unfold Spec.trim. rewrite filter_In. simpl.
    destruct (first_day_present df_wind i r Hin) as (d & ->).
    destruct (Z.eqb_spec (day (DateTime r)) d) as [E | E].
    + subst d. tauto.
    + split; [intros [_ H']; discriminate | intros H'; congruence].
  - split; [vm_compute; reflexivity|].
    split; [vm_compute; reflexivity|].
    split; [vm_compute; reflexivity|].
    split; [vm_compute; reflexivity|].
    split; vm_compute; reflexivity.
Qed.

Lemma trim_removes_later_days_of_a_label_witness :
  OrganizeData monday_to_monday = Return (Spec.trim monday_frame) /\
  (In (0%nat, mk_row "Palo Alto" (mk_datetime 2024 3 4 0 0 0) "Monday" "12AM" (JInt 0))
      (Spec.trim monday_frame) <->
   Spec.first_day monday_frame "Monday" = Some 4).
Proof.
  destruct trim_removes_later_days_of_a_label as (Htrim & _).
  destruct (Htrim monday_to_monday monday_frame) as (Hcode & Hrows).
  - vm_compute. reflexivity.
  - split; [exact Hcode|].
    apply (Hrows 0%nat
             (mk_row "Palo Alto" (mk_datetime 2024 3 4 0 0 0) "Monday" "12AM" (JInt 0))).
    vm_compute. left. reflexivity.
Defined.

(** ** The calendar *)

Lemma days_before_year_step (y : Z) :
  days_before_year (y + 1) = days_before_year y + 365 + (if is_leap y then 1 else 0).
Proof.
  unfold days_before_year, is_leap. replace (y + 1 - 1) with y by lia.
  destruct (Z.eqb_spec (y mod 4) 0), (Z.eqb_spec (y mod 100) 0),
    (Z.eqb_spec (y mod 400) 0); simpl; Z.div_mod_to_equations; lia.
Qed.

Lemma days_before_year_mono (y y' : Z) :
  y <= y' -> days_before_year y <= days_before_year y'.
Proof.
  intros H. unfold days_before_year. Z.div_mod_to_equations. lia.
Qed.

Lemma days_before_month_range (y m : Z) :
  1 <= m <= 12 -> 0 <= days_before_month y m <= 334 + (if is_leap y then 1 else 0).
Proof.
  intros H. assert (E : exists n : nat, m = Z.of_nat n /\ (1 <= n <= 12)%nat).
  { exists (Z.to_nat m). lia. }
  destruct E as (n & -> & Hn). unfold days_before_month.
  destruct (is_leap y);
  do 13 (destruct n as [|n]; [simpl; lia|]); lia.
Qed.

Lemma days_before_month_apart (y m1 m2 : Z) :
  1 <= m1 -> m1 < m2 -> m2 <= 12 ->
  28 <= days_before_month y m2 - days_before_month y m1.
Proof.
  intros H1 H2 H3.
  assert (E1 : exists n : nat, m1 = Z.of_nat n /\ (1 <= n <= 12)%nat).
  { exists (Z.to_nat m1). lia. }
  assert (E2 : exists n : nat, m2 = Z.of_nat n /\ (1 <= n <= 12)%nat).
  { exists (Z.to_nat m2). lia. }
  destruct E1 as (n1 & -> & Hn1). destruct E2 as (n2 & -> & Hn2).
  unfold days_before_month. destruct (is_leap y);
  do 13 (destruct n1 as [|n1]; [do 13 (destruct n2 as [|n2]; [simpl in *; lia|]); lia|]); lia.
Qed.

(** Two valid dates with the same day of the month in different months
    are at least 28 days apart. *)
Lemma same_day_other_month (t1 t2 : datetime) :
  valid t1 = true -> valid t2 = true -> day t1 = day t2 ->
  year t1 < year t2 \/ (year t1 = year t2 /\ month t1 < month t2) ->
  28 <= toordinal t2 - toordinal t1.
Proof.
  intros V1 V2 Hday Hlt. apply valid_bounds in V1, V2. unfold toordinal.
  rewrite Hday. destruct Hlt as [Hy | [Hy Hm]].
  - pose proof (days_before_year_mono (year t1 + 1) (year t2) ltac:(lia)) as Hmono.
    rewrite days_before_year_step in Hmono.
    pose proof (days_before_month_range (year t1) (month t1) ltac:(lia)).
    pose proof (days_before_month_range (year t2) (month t2) ltac:(lia)).
    lia.
  - rewrite Hy.
    pose proof (days_before_month_apart (year t2) (month t1) (month t2)
                  ltac:(lia) Hm ltac:(lia)).
    lia.
Qed.

Lemma same_day_near_same_date (t1 t2 : datetime) :
  valid t1 = true -> valid t2 = true -> day t1 = day t2 ->
  Z.abs (toordinal t1 - toordinal t2) < 28 ->
  year t1 = year t2 /\ month t1 = month t2.
Proof.
  intros V1 V2 Hday Hnear.
  destruct (Z.lt_trichotomy (year t1) (year t2)) as [Hy | [Hy | Hy]].
  - pose proof (same_day_other_month t1 t2 V1 V2 Hday (or_introl Hy)). lia.
  - destruct (Z.lt_trichotomy (month t1) (month t2)) as [Hm | [Hm | Hm]].
    + pose proof (same_day_other_month t1 t2 V1 V2 Hday (or_intror (conj Hy Hm))).
      lia.
    + tauto.
    + pose proof (same_day_other_month t2 t1 V2 V1 (eq_sym Hday)
                    (or_intror (conj (eq_sym Hy) Hm))).
      lia.
  - pose proof (same_day_other_month t2 t1 V2 V1 (eq_sym Hday) (or_introl Hy)). lia.
Qed.

(** The claim C3 at a payload with the Fridays 1 March and 1 November
    2024: both rows survive the trimming, under one weekday label and on
    two dates. *)
Lemma one_label_two_dates :
  OrganizeData two_fridays =
    Return [(0%nat, mk_row "Palo Alto" (mk_datetime 2024 3 1 9 0 0) "Friday" "9AM" (JInt 10));
            (1%nat, mk_row "Palo Alto" (mk_datetime 2024 11 1 9 0 0) "Friday" "9AM" (JInt 12))] /\
  Spec.date (mk_row "Palo Alto" (mk_datetime 2024 3 1 9 0 0) "Friday" "9AM" (JInt 10)) <>
  Spec.date (mk_row "Palo Alto" (mk_datetime 2024 11 1 9 0 0) "Friday" "9AM" (JInt 12)).
Proof. split; [reflexivity | discriminate]. Qed.

(** C3, amended.  In the frame that [OrganizeData] returns, two rows
    with the same weekday label have the same day of the month; if they
    are moreover less than 28 days apart, they are on the same date. *)
Theorem trimmed_label_has_one_day_of_month
    (wind_dict : json) (df : DataFrame) (i1 i2 : nat) (r1 r2 : row) :
  OrganizeData wind_dict = Return df ->
  In (i1, r1) df -> In (i2, r2) df -> Weekday r1 = Weekday r2 ->
  day (DateTime r1) = day (DateTime r2) /\
  (Z.abs (toordinal (DateTime r1) - toordinal (DateTime r2)) < 28 ->
   Spec.date r1 = Spec.date r2).
Proof.
  intros Hdf H1 H2 Hlabel.
  destruct (OrganizeData_rows _ _ Hdf) as (df_wind & Hframe & _).
  rewrite (OrganizeData_trim _ _ Hframe) in Hdf. injection Hdf as <-.
  assert (Hkept : forall i r, In (i, r) (Spec.trim df_wind) ->
            In (i, r) df_wind /\
            Spec.first_day df_wind (Weekday r) = Some (day (DateTime r))).
  { intros i r Hin. unfold Spec.trim in Hin. apply filter_In in Hin.
    destruct Hin as [Hin Hkeep]. split; [exact Hin|]. simpl in Hkeep.
    destruct (first_day_present df_wind i r Hin) as (d & Hd).
    rewrite Hd in *. apply Z.eqb_eq in Hkeep. now rewrite Hkeep. }
  destruct (Hkept _ _ H1) as [Hin1 Hd1], (Hkept _ _ H2) as [Hin2 Hd2].
  assert (Hday : day (DateTime r1) = day (DateTime r2)).
  { rewrite Hlabel in Hd1. congruence. }
  split; [exact Hday|]. intros Hnear.
  apply wind_frame_rows in Hframe. destruct Hframe as (location & rows & -> & Hrows).
  rewrite Forall_forall in Hrows.
  destruct (Hrows r1 (range_index_rows _ _ _ Hin1)) as (_ & V1 & _).
  destruct (Hrows r2 (range_index_rows _ _ _ Hin2)) as (_ & V2 & _).
  destruct (same_day_near_same_date _ _ V1 V2 Hday Hnear) as [Hy Hm].
  unfold Spec.date. now rewrite Hy, Hm, Hday.
Qed.

Lemma trimmed_label_has_one_day_of_month_witness :
  let r1 := mk_row "Palo Alto" (mk_datetime 2024 3 4 0 0 0) "Monday" "12AM" (JInt 0) in
  let r2 := mk_row "Palo Alto" (mk_datetime 2024 3 4 23 0 0) "Monday" "11PM" (JInt 23) in
  OrganizeData monday_to_monday = Return (firstn 168 monday_frame) /\
  In (0%nat, r1) (firstn 168 monday_frame) /\
  In (23%nat, r2) (firstn 168 monday_frame) /\
  day (DateTime r1) = day (DateTime r2) /\ Spec.date r1 = Spec.date r2.
Proof.
  intros r1 r2.
  assert (Hdf : OrganizeData monday_to_monday = Return (firstn 168 monday_frame))
    by (vm_compute; reflexivity).
  assert (H1 : In (0%nat, r1) (firstn 168 monday_frame))
    by (vm_compute; left; reflexivity).
  assert (H2 : In (23%nat, r2) (firstn 168 monday_frame))
    by (vm_compute; do 23 right; left; reflexivity).
  destruct (trimmed_label_has_one_day_of_month monday_to_monday
              (firstn 168 monday_frame) 0%nat 23%nat r1 r2 Hdf H1 H2 eq_refl)
    as [Hday Hdate].
  split; [exact Hdf|]. split; [exact H1|]. split; [exact H2|].
  split; [exact Hday|].
  apply Hdate. vm_compute. reflexivity.
Defined.

(** ** Duplicates in the store *)

Lemma datetime_eqb_eq (a b : datetime) : Datetime.eqb a b = true <-> a = b.
Proof.
  unfold Datetime.eqb. rewrite !andb_true_iff, !Z.eqb_eq.
  destruct a, b; simpl. split.
  - intros [[[[[-> ->] ->] ->] ->] ->]. reflexivity.
  - intros H. injection H as -> -> -> -> -> ->. tauto.
Qed.

Lemma same_key_spec (a b : row) :
  same_key a b = true <-> Location a = Location b /\ DateTime a = DateTime b.
Proof.
  unfold same_key. now rewrite andb_true_iff, String.eqb_eq, datetime_eqb_eq.
Qed.

Lemma has_key_iff (r : row) (l : list row) :
  existsb (same_key r) l = true <->
  exists q, In q l /\ Location r = Location q /\ DateTime r = DateTime q.
Proof.
  rewrite existsb_exists. split; intros (q & Hin & H); exists q;
    (split; [exact Hin|]); now apply same_key_spec.
Qed.

(** [keep_last] keeps a row for every key of the frame. *)
Lemma keep_last_keys (r : row) (l : list row) :
  existsb (same_key r) (keep_last l) = existsb (same_key r) l.
Proof.
  induction l as [|x l IH]; simpl; [reflexivity|].
  destruct (existsb (same_key x) l) eqn:Ex; simpl; rewrite IH.
  - destruct (same_key r x) eqn:Erx; [|reflexivity]. simpl.
    apply same_key_spec in Erx. apply has_key_iff in Ex.
    destruct Ex as (q & Hin & HL & HD).
    apply has_key_iff. exists q. intuition congruence.
  - reflexivity.
Qed.

Lemma keep_last_idempotent (l : list row) : keep_last (keep_last l) = keep_last l.
Proof.
  induction l as [|x l IH]; simpl; [reflexivity|].
  destruct (existsb (same_key x) l) eqn:Ex; [exact IH|].
  simpl. now rewrite keep_last_keys, Ex, IH.
Qed.

Lemma records_range_index (rows : list row) : records (range_index rows) = rows.
Proof.
  unfold records, range_index. generalize 0%nat.
  induction rows as [|r rows IH]; intros n; simpl; [reflexivity|].
  now rewrite IH.
Qed.

Lemma drop_duplicates_idempotent (df : DataFrame) :
  drop_duplicates (drop_duplicates df) = drop_duplicates df.
Proof.
  unfold drop_duplicates. now rewrite records_range_index, keep_last_idempotent.
Qed.

(** Where the store already holds a frame, a second successful fetch
    leaves what the first one left, whatever the two fetches yield. *)
Lemma repeated_fetch_on_store (soup soup' : Z -> outcome string) (location location' : string)
    (self self' self'' : scraper) (current df df' : DataFrame) :
  data self = Some current ->
  GetData soup location self = (Return df, self') ->
  GetData soup' location' self' = (Return df', self'') ->
  data self'' = data self'.
Proof.
  intros Hdata H1 H2.
  pose proof (GetData_on_store _ _ _ _ _ _ Hdata H1) as Hd1.
  pose proof (GetData_on_store _ _ _ _ _ _ Hd1 H2) as Hd2.
  now rewrite Hd2, Hd1, drop_duplicates_idempotent.
Qed.

(** A frame in which no key occurs twice keeps all its rows. *)
Lemma keep_last_distinct (l : list row) :
  NoDup (map (fun r => (Location r, DateTime r)) l) -> keep_last l = l.
Proof.
  induction l as [|x l IH]; simpl; intros Hnd; [reflexivity|].
  inversion Hnd as [|? ? Hnot Hnd']; subst.
  destruct (existsb (same_key x) l) eqn:Ex.
  - exfalso. apply has_key_iff in Ex. destruct Ex as (q & Hin & HL & HD).
    apply Hnot. rewrite HL, HD.
    exact (in_map (fun r => (Location r, DateTime r)) l q Hin).
  - now rewrite IH.
Qed.

(** From the empty store, a second fetch leaves the records of the
    first one when no key occurs twice among them. *)
Lemma repeated_fetch_distinct (soup soup' : Z -> outcome string) (location location' : string)
    (self' self'' : scraper) (df df' : DataFrame) :
  GetData soup location init = (Return df, self') ->
  GetData soup' location' self' = (Return df', self'') ->
  NoDup (map (fun r => (Location r, DateTime r)) (records df)) ->
  option_map records (data self'') = Some (records df) /\
  option_map records (data self') = Some (records df).
Proof.
  intros H1 H2 Hnd.
  assert (Hd1 : data self' = Some df).
  { rewrite GetData_stages in H1. simpl in H1.
    destruct (spot_id_of location) as [spot_id|]; [|discriminate].
    destruct (soup spot_id) as [soup_text|]; [|discriminate].
    destruct (extract_wind_dict soup_text) as [wind_dict|]; [|discriminate].
    destruct (OrganizeData wind_dict) as [d|]; [|discriminate].
    injection H1 as <- <-. reflexivity. }
  rewrite (GetData_on_store _ _ _ _ _ _ Hd1 H2), Hd1. simpl.
  unfold drop_duplicates. now rewrite records_range_index, keep_last_distinct.
Qed.

(** * Further properties *)

(** ** Names and time texts *)

Lemma chars_append (a b : string) : chars (a ++ b)%string = chars a ++ chars b.
Proof. induction a as [|c a IH]; simpl; [reflexivity | now rewrite IH]. Qed.

Lemma slice_drop_suffix (s suffix : string) (k : nat) :
  String.length suffix = k ->
  slice (s ++ suffix)%string None (Some (- Z.of_nat k)) =
  if (k =? 0)%nat then "" else s.
Proof.
  intros Hk. unfold slice, slice_list, adjust.
  rewrite chars_append, length_app, !chars_length, Hk.
  destruct (Nat.eqb_spec k 0) as [-> | Hne].
  - simpl. replace (Z.to_nat _) with 0%nat by lia. reflexivity.
  - destruct (Z.ltb_spec (- Z.of_nat k) 0); [|lia].
    replace (Z.to_nat _) with (String.length s) by lia.
    simpl skipn. rewrite <- chars_length, firstn_app, Nat.sub_diag, firstn_all.
    simpl. rewrite app_nil_r. apply of_chars_chars.
Qed.

(** [OrganizeData] never looks at the last five characters of a time
    text: whatever they are, the time is the one parsed from the text
    before them.  Two texts that differ in their offset only, as the two
    hours 1 of the night when summer time ends, give the same time. *)
Theorem offset_suffix_ignored (s suffix : string) :
  String.length suffix = 5%nat ->
  parse_local_time (JString (s ++ suffix)%string) = strptime s.
Proof.
  intros H. simpl. change (-5) with (- Z.of_nat 5).
  now rewrite (slice_drop_suffix s suffix 5 H).
Qed.

(** A time text of five characters or fewer is stripped to the empty
    text, and parsing it raises [ValueError]. *)
Theorem short_time_text_rejected (s : string) :
  (String.length s <= 5)%nat -> parse_local_time (JString s) = Raise ValueError.
Proof.
  intros H. simpl.
  assert (E : slice s None (Some (-5)) = "").
  { unfold slice, slice_list, adjust. rewrite chars_length.
    replace (Z.to_nat _) with 0%nat; [reflexivity|].
    destruct (Z.ltb_spec (-5) 0); lia. }
  now rewrite E.
Qed.

Lemma title_from_cons (prev : bool) (c : ascii) (l : list ascii) :
  title_from prev (c :: l) = title_char prev c :: title_from (cased c) l.
Proof.
  simpl. unfold title_char, cased.
  destruct (is_lower c); [reflexivity|]. destruct (is_upper c); reflexivity.
Qed.

Lemma title_char_lower (prev : bool) (c : ascii) :
  title_char prev (to_lower c) = title_char prev c /\ cased (to_lower c) = cased c.
Proof.
  destruct prev; destruct c as [[] [] [] [] [] [] [] []]; vm_compute; split; reflexivity.
Qed.

Lemma title_char_title (prev : bool) (c : ascii) :
  title_char prev (title_char prev c) = title_char prev c /\
  cased (title_char prev c) = cased c.
Proof.
  destruct prev; destruct c as [[] [] [] [] [] [] [] []]; vm_compute; split; reflexivity.
Qed.

Lemma title_from_lower (prev : bool) (l : list ascii) :
  title_from prev (map to_lower l) = title_from prev l.
Proof.
  revert prev; induction l as [|c l IH]; intros prev; [reflexivity|].
  simpl map. rewrite !title_from_cons.
  destruct (title_char_lower prev c) as [-> ->]. now rewrite IH.
Qed.

Lemma title_from_title (prev : bool) (l : list ascii) :
  title_from prev (title_from prev l) = title_from prev l.
Proof.
  revert prev; induction l as [|c l IH]; intros prev; [reflexivity|].
  rewrite !title_from_cons.
  destruct (title_char_title prev c) as [-> ->]. now rewrite IH.
Qed.

Lemma title_from_length (prev : bool) (l : list ascii) :
  List.length (title_from prev l) = List.length l.
Proof.
  revert prev; induction l as [|c l IH]; intros prev; [reflexivity|].
  rewrite title_from_cons. simpl. now rewrite IH.
Qed.

(** On ASCII names, the lookup of a name in [GetData] does not depend
    on the case of its letters: title-casing is idempotent, keeps the
    length, and gives the same result on a text and on its lower-case
    form, so two names that agree up to case resolve alike, to the same
    spot or to the same [KeyError]. *)
Theorem lookup_ignores_case :
  (forall s, is_ascii s = true -> title (title s) = title s) /\
  (forall s, is_ascii s = true -> String.length (title s) = String.length s) /\
  (forall s, is_ascii s = true -> title (lower s) = title s) /\
  (forall a b, is_ascii a = true -> is_ascii b = true ->
     lower a = lower b -> spot_id_of a = spot_id_of b) /\
  (forall s, is_ascii s = true -> spot_id_of (title s) = spot_id_of s).
Proof.
  assert (Hidem : forall s, title (title s) = title s).
  { intros s. unfold title. now rewrite chars_of_chars, title_from_title. }
  assert (Hlow : forall s, title (lower s) = title s).
  { intros s. unfold title, lower. now rewrite chars_of_chars, title_from_lower. }
  split; [intros s _; apply Hidem|]. split.
  { intros s _. unfold title. rewrite <- !chars_length, chars_of_chars.
    apply title_from_length. }
  split; [intros s _; apply Hlow|]. split.
  - intros a b _ _ H. unfold spot_id_of. now rewrite <- (Hlow a), <- (Hlow b), H.
  - intros s _. unfold spot_id_of. now rewrite Hidem.
Qed.

(** [GetData] asks the transport for registered spots only: what the
    transport would answer for any other number has no bearing on the
    result or on the instance. *)
Theorem transport_asked_for_registered_spots_only
    (soup soup' : Z -> outcome string) (location : string) (self : scraper) :
  (forall name id, In (name, id) LOCATION_LOOKUP -> soup id = soup' id) ->
  GetData soup location self = GetData soup' location self.
Proof.
  intros H. rewrite !GetData_stages.
  destruct (spot_id_of location) as [spot_id|e] eqn:E; [|reflexivity].
  unfold spot_id_of in E.
  destruct (dict_get _ LOCATION_LOOKUP) as [id|] eqn:Ed; [|discriminate].
  injection E as ->. apply dict_get_some in Ed. destruct Ed as (k & Hin & _).
  now rewrite (H k spot_id Hin).
Qed.

(** ** The frame of a payload *)

Lemma comprehension_raise {A B : Type} (f : A -> outcome B) (l : list A) (e : exn) :
  comprehension f l = Raise e -> exists x, In x l /\ f x = Raise e.
Proof.
  induction l as [|x l IH]; simpl; [discriminate|].
  destruct (f x) as [y|e'] eqn:E; simpl.
  - destruct (comprehension f l) as [ys|e'']; simpl; [discriminate|].
    intros H. injection H as ->. destruct (IH eq_refl) as (x' & Hin & Hx').
    exists x'. split; [now right | exact Hx'].
  - intros H. injection H as ->. exists x. split; [now left | exact E].
Qed.

Lemma wind_frame_inv (wind_dict : json) (df : DataFrame) :
  wind_frame wind_dict = Return df ->
  exists model_data items texts speeds times location_id location,
    getitem wind_dict "model_data" = Return model_data /\
    iter model_data = Return items /\
    comprehension (fun x => getitem x "model_time_local") items = Return texts /\
    comprehension (fun x => getitem x "wind_speed") items = Return speeds /\
    comprehension parse_local_time texts = Return times /\
    getitem wind_dict "spot_id" = Return location_id /\
    location_of location_id = Return location /\
    List.length times = List.length items /\
    List.length speeds = List.length items /\
    df = range_index (canonical_rows location times speeds).
Proof.
  intros H. unfold wind_frame in H. bind_inv H.
  match goal with
  | E : comprehension (list_getitem DOTW) (map weekday ?ts) = Return ?ws |- _ =>
      rewrite (comprehension_total _ (fun w => nth (Z.to_nat w) DOTW "")) in E;
      [injection E as <- | intros w Hw; apply in_map_iff in Hw;
                           destruct Hw as (t & <- & _); apply weekday_label]
  end.
  unfold new_frame in H.
  match type of H with (if ?c then _ else _) = _ => destruct c eqn:Elen end;
    [|discriminate].
  injection H as <-.
  repeat match goal with
         | E : comprehension _ _ = Return _ |- _ =>
             pose proof (comprehension_length _ _ _ E); revert E
         end.
  intros. do 7 eexists.
  split; [reflexivity|]. split; [eassumption|]. split; [eassumption|].
  split; [eassumption|]. split; [eassumption|]. split; [reflexivity|].
  split; [eassumption|]. split; [congruence|]. split; [congruence|].
  f_equal.
  etransitivity;
    [|apply zip_columns_canonical;
      eapply comprehension_Forall; [exact parse_local_time_valid | eassumption]].
  reflexivity.
Qed.

(** The frame that [OrganizeData] builds before it drops rows, in
    full, for a payload with ASCII time texts and with wind speeds that
    are all 64-bit ints or all floats.  It exists exactly when
    ['model_data'] is present and iterable, every item has the two
    fields, every time text parses and ['spot_id'] is a registered spot;
    it then has one row per item, in the order of the items and
    labelled 0, 1, 2, ..., and the row of an item holds the location of
    the spot, the parsed time, the weekday and hour label of that time,
    and the item's wind speed as it came. *)
Theorem wind_frame_one_row_per_record (wind_dict : json) (df : DataFrame) :
  plain_payload wind_dict ->
  (wind_frame wind_dict = Return df <->
   exists model_data items texts speeds times location_id location,
     getitem wind_dict "model_data" = Return model_data /\
     iter model_data = Return items /\
     comprehension (fun x => getitem x "model_time_local") items = Return texts /\
     comprehension (fun x => getitem x "wind_speed") items = Return speeds /\
     comprehension parse_local_time texts = Return times /\
     getitem wind_dict "spot_id" = Return location_id /\
     location_of location_id = Return location /\
     List.length times = List.length items /\
     List.length speeds = List.length items /\
     df = range_index (canonical_rows location times speeds)).
Proof.
  intros _. split.
  - apply wind_frame_inv.
  - intros (md & items & texts & speeds & times & id & loc &
            Hmd & Hit & Htx & Hsp & Htm & Hid & Hloc & _ & _ & ->).
    exact (wind_frame_intro _ _ _ _ _ _ _ _ Hmd Hit Htx Hsp Htm Hid Hloc).
Qed.

Lemma getitem_raise (x : json) (key : string) (e : exn) :
  getitem x key = Raise e -> e = TypeError \/ e = KeyError (JString key).
Proof.
  destruct x; simpl; try (intros H; injection H as <-; now left).
  destruct (dict_get _ _); [discriminate|].
  intros H; injection H as <-; now right.
Qed.

Lemma iter_raise (v : json) (e : exn) : iter v = Raise e -> e = TypeError.
Proof. destruct v; simpl; intros H; now inversion H. Qed.

Lemma strptime_raise (s : string) (e : exn) : strptime s = Raise e -> e = ValueError.
Proof.
  unfold strptime.
  repeat match goal with
         | |- context [match ?x with _ => _ end] => destruct x
         end; intros H; now inversion H.
Qed.

Lemma parse_local_time_raise (x : json) (e : exn) :
  parse_local_time x = Raise e -> e = TypeError \/ e = ValueError.
Proof.
  destruct x; simpl; try (intros H; injection H as <-; now left).
  intros H. right. exact (strptime_raise _ _ H).
Qed.

Lemma location_of_raise (location_id : json) (e : exn) :
  location_of location_id = Raise e -> e = TypeError \/ e = KeyError location_id.
Proof.
  unfold location_of.
  destruct location_id; try (intros H; injection H as <-; now left);
    destruct (dict_get _ inv_map); try discriminate;
    intros H; injection H as <-; now right.
Qed.

Lemma drop_repeated_days_total (wind_dict : json) (df : DataFrame) :
  wind_frame wind_dict = Return df -> drop_repeated_days df = Return (Spec.trim df).
Proof. intros H. apply drop_repeated_days_trim. exact (wind_frame_labels _ _ H). Qed.

Lemma wind_frame_raise (wind_dict : json) (e : exn) :
  wind_frame wind_dict = Raise e -> expected_error wind_dict e.
Proof.
  unfold wind_frame, expected_error.
  destruct (getitem wind_dict "model_data") as [md|e0] eqn:Emd; simpl.
  2:{ intros H; injection H as <-. apply getitem_raise in Emd. tauto. }
  destruct (iter md) as [items|e0] eqn:Eit; simpl.
  2:{ intros H; injection H as <-. apply iter_raise in Eit. tauto. }
  destruct (comprehension (fun x => getitem x "model_time_local") items)
    as [texts|e0] eqn:Etx; simpl.
  2:{ intros H; injection H as <-. apply comprehension_raise in Etx.
      destruct Etx as (x & _ & Hx). apply getitem_raise in Hx. tauto. }
  destruct (comprehension (fun x => getitem x "wind_speed") items)
    as [speeds|e0] eqn:Esp; simpl.
  2:{ intros H; injection H as <-. apply comprehension_raise in Esp.
      destruct Esp as (x & _ & Hx). apply getitem_raise in Hx. tauto. }
  destruct (comprehension parse_local_time texts) as [times|e0] eqn:Etm; simpl.
  2:{ intros H; injection H as <-. apply comprehension_raise in Etm.
      destruct Etm as (x & _ & Hx). apply parse_local_time_raise in Hx. tauto. }
  rewrite (comprehension_total _ (fun w => nth (Z.to_nat w) DOTW ""));
    [| intros w Hw; apply in_map_iff in Hw;
       destruct Hw as (t & <- & _); apply weekday_label].
  cbn [bind].
  destruct (getitem wind_dict "spot_id") as [id|e0] eqn:Eid; cbn [bind].
  2:{ intros H; injection H as <-. apply getitem_raise in Eid. tauto. }
  destruct (location_of id) as [loc|e0] eqn:Eloc; cbn [bind].
  2:{ intros H; injection H as <-. apply location_of_raise in Eloc.
      destruct Eloc as [-> | ->]; [tauto|]. do 6 right. now exists id. }
  unfold new_frame. rewrite !length_map.
  rewrite (comprehension_length _ _ _ Esp), <- (comprehension_length _ _ _ Etx),
    <- (comprehension_length _ _ _ Etm), !Nat.eqb_refl.
  discriminate.
Qed.

(** [OrganizeData] raises nothing but [TypeError], [ValueError], and
    [KeyError] for one of the four field names or for the payload's
    spot: the weekday table is never indexed out of range, the columns
    of the frame always have one length, and the loop that looks for
    repeated days never meets a weekday without rows. *)
Theorem OrganizeData_raises_only (wind_dict : json) (e : exn) :
  OrganizeData wind_dict = Raise e -> expected_error wind_dict e.
Proof.
  unfold OrganizeData.
  destruct (wind_frame wind_dict) as [df|e0] eqn:E; simpl.
  - rewrite (drop_repeated_days_total _ _ E). discriminate.
  - intros H; injection H as <-. now apply wind_frame_raise.
Qed.

(** All rows of a frame that [OrganizeData] returns carry one location,
    the registry's name for the payload's ['spot_id']. *)
Theorem rows_carry_payload_location (wind_dict : json) (df : DataFrame) :
  OrganizeData wind_dict = Return df ->
  exists location_id id name,
    getitem wind_dict "spot_id" = Return location_id /\
    key_is location_id id = true /\
    In (name, id) LOCATION_LOOKUP /\
    forall i r, In (i, r) df -> Location r = name.
Proof.
  intros H. destruct (OrganizeData_rows _ _ H) as (df_wind & Hw & Hsub).
  apply wind_frame_inv in Hw.
  destruct Hw as (md & items & texts & speeds & times & lid & loc &
                  _ & _ & _ & _ & _ & Hid & Hloc & _ & _ & ->).
  unfold location_of in Hloc.
  assert (Hget : dict_get (key_is lid) inv_map = Some loc).
  { destruct lid; try discriminate;
      destruct (dict_get _ inv_map); try discriminate; congruence. }
  apply dict_get_some in Hget. destruct Hget as (id & Hin & Hk).
  exists lid, id, loc. split; [exact Hid|]. split; [exact Hk|].
  split; [now apply inv_map_entries|].
  intros i r Hin'. apply Hsub, range_index_rows in Hin'.
  unfold canonical_rows in Hin'. apply in_map_iff in Hin'.
  destruct Hin' as ([t v] & <- & _). reflexivity.
Qed.

Lemma hour_label_injective (h h' : Z) :
  0 <= h <= 23 -> 0 <= h' <= 23 ->
  Spec.hour_label h = Spec.hour_label h' -> h = h'.
Proof.
  intros Hh Hh'.
  assert (E : exists n : nat, h = Z.of_nat n /\ (n < 24)%nat)
    by (exists (Z.to_nat h); lia).
  assert (E' : exists n : nat, h' = Z.of_nat n /\ (n < 24)%nat)
    by (exists (Z.to_nat h'); lia).
  destruct E as (n & -> & Hn), E' as (n' & -> & Hn').
  do 24 (destruct n as [|n];
         [do 24 (destruct n' as [|n']; [vm_compute; congruence|]); lia|]).
  lia.
Qed.

(** The hour label determines the hour: two hours of the day with the
    same label are the same hour.  In a frame that [OrganizeData]
    returns, the rows labelled 12AM, which [PlotWindForecast] takes for
    the starts of the days, are exactly the rows of hour 0. *)
Theorem hour_label_tells_hour :
  (forall h h', 0 <= h <= 23 -> 0 <= h' <= 23 ->
     Spec.hour_label h = Spec.hour_label h' -> h = h') /\
  (forall wind_dict df i r,
     OrganizeData wind_dict = Return df -> In (i, r) df ->
     (Hour r = "12AM" <-> hour (DateTime r) = 0)).
Proof.
  split; [exact hour_label_injective|].
  intros wind_dict df i r Hdf Hin.
  destruct (OrganizeData_rows _ _ Hdf) as (df_wind & Hw & Hsub).
  apply wind_frame_rows in Hw. destruct Hw as (loc & rows & -> & Hrows).
  rewrite Forall_forall in Hrows.
  destruct (Hrows r (range_index_rows _ _ _ (Hsub _ Hin))) as (_ & Hv & _ & Hh).
  apply valid_bounds in Hv.
  rewrite Hh, hour_label_refines by tauto. change "12AM" with (Spec.hour_label 0).
  split.
  - intros E. apply hour_label_injective in E; [exact E | tauto | lia].
  - intros ->. reflexivity.
Qed.

(** ** More on trimming *)

Lemma range_index_nth (rows : list row) (i : nat) (r : row) :
  In (i, r) (range_index rows) <-> nth_error rows i = Some r.
Proof.
  unfold range_index.
  assert (G : forall n, In (i, r) (combine (seq n (List.length rows)) rows) <->
                        (n <= i)%nat /\ nth_error rows (i - n) = Some r).
  { induction rows as [|x rows IH]; intros n; simpl.
    - split; [tauto|]. intros [_ H]. destruct (i - n)%nat; discriminate.
    - rewrite IH. split.
      + intros [E | [Hle Hn]].
        * injection E as -> ->. rewrite Nat.sub_diag. split; [lia | reflexivity].
        * split; [lia|]. replace (i - n)%nat with (S (i - S n)) by lia. exact Hn.
      + intros [Hle Hn]. destruct (Nat.eq_dec n i) as [-> | Hne].
        * rewrite Nat.sub_diag in Hn. simpl in Hn. injection Hn as ->. now left.
        * right. split; [lia|].
          replace (i - n)%nat with (S (i - S n)) in Hn by lia. exact Hn. }
  rewrite G, Nat.sub_0_r. intuition lia.
Qed.

Lemma trim_pred_first (df : DataFrame) (label : string) (ir : nat * row) :
  find (fun ir => String.eqb (Weekday (snd ir)) label) df = Some ir ->
  Spec.first_day df (Weekday (snd ir)) = Some (day (DateTime (snd ir))).
Proof.
  intros H. pose proof (find_some _ _ H) as [_ Hl]. simpl in Hl.
  apply String.eqb_eq in Hl. unfold Spec.first_day. rewrite Hl, H.
  now destruct ir.
Qed.

Lemma find_filter_keeps {A : Type} (p q : A -> bool) (l : list A) (x : A) :
  find p l = Some x -> q x = true -> find p (filter q l) = Some x.
Proof.
  induction l as [|y l IH]; simpl; [discriminate|].
  destruct (p y) eqn:Ep.
  - intros E; injection E as ->. intros Hq. rewrite Hq. simpl. now rewrite Ep.
  - intros E Hq. destruct (q y); simpl; [rewrite Ep|]; now apply IH.
Qed.

Lemma first_day_trim (df : DataFrame) (i : nat) (r : row) :
  In (i, r) df ->
  Spec.first_day (Spec.trim df) (Weekday r) = Spec.first_day df (Weekday r).
Proof.
  intros Hin. unfold Spec.first_day.
  destruct (find (fun ir => String.eqb (Weekday (snd ir)) (Weekday r)) df)
    as [ir0|] eqn:E.
  - unfold Spec.trim. erewrite find_filter_keeps; [reflexivity | exact E |].
    rewrite (trim_pred_first _ _ _ E). apply Z.eqb_refl.
  - exfalso. apply (find_none _ _ E) in Hin. simpl in Hin.
    now rewrite String.eqb_refl in Hin.
Qed.

Lemma filter_all {A : Type} (p : A -> bool) (l : list A) :
  (forall x, In x l -> p x = true) -> filter p l = l.
Proof.
  induction l as [|x l IH]; intros H; simpl; [reflexivity|].
  rewrite (H x (or_introl eq_refl)), IH; [reflexivity|].
  intros; apply H; now right.
Qed.

Lemma trim_idempotent (df : DataFrame) : Spec.trim (Spec.trim df) = Spec.trim df.
Proof.
  unfold Spec.trim at 1. apply filter_all. intros [i r] Hin. simpl.
  unfold Spec.trim in Hin. apply filter_In in Hin. destruct Hin as [Hin Hk].
  simpl in Hk. fold (Spec.trim df). now rewrite (first_day_trim df i r Hin).
Qed.

(** What the dropping of repeated days keeps.  A row that stays keeps
    its index label, which is the position of its record in the payload;
    the first row of the frame always stays; for every row of the frame
    a row with the same weekday label stays, at the same position or
    before; and running the dropping again on the result changes
    nothing. *)
Theorem trimming_keeps_labels_and_first_rows (wind_dict : json) (df_wind df : DataFrame) :
  wind_frame wind_dict = Return df_wind ->
  OrganizeData wind_dict = Return df ->
  (forall i r, In (i, r) df -> nth_error df_wind i = Some (i, r)) /\
  (forall first rest, df_wind = first :: rest -> exists rest', df = first :: rest') /\
  (forall i r, In (i, r) df_wind ->
     exists j q, In (j, q) df /\ Weekday q = Weekday r /\ (j <= i)%nat) /\
  drop_repeated_days df = Return df.
Proof.
  intros Hw Hdf. rewrite (OrganizeData_trim _ _ Hw) in Hdf. injection Hdf as <-.
  pose proof (wind_frame_labels _ _ Hw) as Hnd.
  destruct (wind_frame_rows _ _ Hw) as (loc & rows & -> & _).
  split; [|split; [|split]].
  - intros i r Hin. unfold Spec.trim in Hin. apply filter_In in Hin.
    destruct Hin as [Hin _]. apply range_index_nth in Hin.
    now apply range_index_nth_error.
  - intros [i r] rest E. unfold Spec.trim. rewrite E. simpl.
    unfold Spec.first_day. simpl. rewrite String.eqb_refl, Z.eqb_refl. eauto.
  - intros i r Hin.
    destruct (find (fun ir => String.eqb (Weekday (snd ir)) (Weekday r))
                   (range_index rows)) as [[j q]|] eqn:E.
    + pose proof (find_some _ _ E) as [Hq Hl]. simpl in Hl.
      apply String.eqb_eq in Hl. exists j, q. split; [|split; [exact Hl|]].
      * unfold Spec.trim. apply filter_In. split; [exact Hq|].
        rewrite (trim_pred_first _ _ _ E). apply Z.eqb_refl.
      * (* the first row with the label comes no later than row i *)
        destruct (Nat.le_gt_cases j i) as [Hle | Hgt]; [exact Hle|]. exfalso.
        apply range_index_nth in Hin, Hq.
        clear Hnd Hw. revert E.
        unfold range_index.
        assert (G : forall (l : list row) (n : nat),
                  nth_error l (i - n) = Some r -> (n <= i)%nat ->
                  find (fun ir => String.eqb (Weekday (snd ir)) (Weekday r))
                       (combine (seq n (List.length l)) l) = Some (j, q) ->
                  (j <= i)%nat).
        { induction l as [|x l IH]; intros n Hn Hle; simpl; [discriminate|].
          destruct (String.eqb (Weekday x) (Weekday r)) eqn:Ex.
          - intros E. injection E as <- _. exact Hle.
          - destruct (Nat.eq_dec n i) as [-> | Hne].
            + rewrite Nat.sub_diag in Hn. simpl in Hn. injection Hn as ->.
              now rewrite String.eqb_refl in Ex.
            + apply IH; [|lia].
              replace (i - n)%nat with (S (i - S n)) in Hn by lia. exact Hn. }
        intros E. specialize (G rows 0%nat). rewrite Nat.sub_0_r in G.
        specialize (G Hin (Nat.le_0_l _) E). lia.
    + exfalso. apply (find_none _ _ E) in Hin. simpl in Hin.
      now rewrite String.eqb_refl in Hin.
  - rewrite drop_repeated_days_trim.
    + now rewrite trim_idempotent.
    + unfold Spec.trim.
      assert (G : forall (p : nat * row -> bool) (l : list (nat * row)),
                NoDup (map fst l) -> NoDup (map fst (filter p l))).
      { intros p l. induction l as [|x l IH]; simpl; intros H; [constructor|].
        inversion H as [|? ? Hnot Hl]; subst.
        destruct (p x); simpl; [constructor|]; auto.
        intros Hx. apply Hnot. apply in_map_iff in Hx.
        destruct Hx as (y & Ey & Hy). apply filter_In in Hy.
        apply in_map_iff. exists y. tauto. }
      now apply G.
Qed.

Lemma date_eqb_eq (a b : Z * Z * Z) : date_eqb a b = true <-> a = b.
Proof.
  destruct a as [[y m] d], b as [[y' m'] d']. unfold date_eqb.
  rewrite !andb_true_iff, !Z.eqb_eq. split.
  - intros [[-> ->] ->]. reflexivity.
  - intros E. injection E as -> -> ->. tauto.
Qed.

(** When the records of a payload lie within less than 28 days of each
    other, comparing days of the month is comparing dates:
    [OrganizeData] returns exactly the rows that lie on the first date
    of their weekday label. *)
Theorem trimming_is_by_date_within_four_weeks (wind_dict : json) (df_wind : DataFrame) :
  wind_frame wind_dict = Return df_wind ->
  (forall i r j q, In (i, r) df_wind -> In (j, q) df_wind ->
     Z.abs (toordinal (DateTime r) - toordinal (DateTime q)) < 28) ->
  OrganizeData wind_dict = Return (first_dates_only df_wind).
Proof.
  intros Hw Hnear. rewrite (OrganizeData_trim _ _ Hw). f_equal.
  destruct (wind_frame_rows _ _ Hw) as (loc & rows & E & Hrows).
  rewrite Forall_forall in Hrows.
  unfold Spec.trim, first_dates_only. apply filter_ext_in. intros [i r] Hin.
  unfold Spec.first_day, first_date. cbn [snd].
  destruct (find _ df_wind) as [[j q]|] eqn:Ef; [|reflexivity].
  pose proof (find_some _ _ Ef) as [Hq _].
  assert (Vr : valid (DateTime r) = true).
  { subst df_wind. now apply (Hrows r (range_index_rows _ _ _ Hin)). }
  assert (Vq : valid (DateTime q) = true).
  { subst df_wind. now apply (Hrows q (range_index_rows _ _ _ Hq)). }
  destruct (Z.eqb_spec (day (DateTime r)) (day (DateTime q))) as [Hd | Hd].
  - symmetry. apply date_eqb_eq. unfold Spec.date.
    destruct (same_day_near_same_date _ _ Vr Vq Hd (Hnear _ _ _ _ Hin Hq)) as [-> ->].
    now rewrite Hd.
  - symmetry. apply not_true_iff_false. rewrite date_eqb_eq. unfold Spec.date.
    congruence.
Qed.

(** ** The store over many calls *)

Lemma GetData_store_step (soup : Z -> outcome string) (location : string)
    (self : scraper) (current : DataFrame) :
  data self = Some current ->
  data (snd (GetData soup location self)) = Some current \/
  data (snd (GetData soup location self)) = Some (drop_duplicates current).
Proof.
  intros Hd. rewrite GetData_stages, Hd.
  destruct (spot_id_of location) as [spot_id|]; [|now left].
  destruct (soup spot_id) as [soup_text|]; [|now left].
  destruct (extract_wind_dict soup_text) as [wind_dict|]; [|now left].
  destruct (OrganizeData wind_dict); simpl; [now right | now left].
Qed.

(** Once the store holds a frame, no sequence of calls of [GetData],
    successful or not, puts anything else there than that frame or that
    frame without its duplicates: no row is ever added. *)
Theorem store_never_grows (calls : list ((Z -> outcome string) * string))
    (self : scraper) (current : DataFrame) :
  data self = Some current ->
  data (poll calls self) = Some current \/
  data (poll calls self) = Some (drop_duplicates current).
Proof.
  revert self current. induction calls as [|[soup location] calls IH];
    intros self current Hd; simpl.
  - now left.
  - destruct (GetData_store_step soup location self current Hd) as [H | H].
    + now apply IH.
    + destruct (IH _ _ H) as [H' | H']; right; [exact H'|].
      now rewrite drop_duplicates_idempotent in H'.
Qed.

Lemma keep_last_incl (l : list row) (r : row) : In r (keep_last l) -> In r l.
Proof.
  induction l as [|x l IH]; simpl; [tauto|].
  destruct (existsb (same_key x) l); simpl; intuition.
Qed.

Lemma keep_last_NoDup (l : list row) : NoDup (map key (keep_last l)).
Proof.
  induction l as [|x l IH]; simpl; [constructor|].
  destruct (existsb (same_key x) l) eqn:Ex; [exact IH|].
  simpl. constructor; [|exact IH].
  intros Hin. apply in_map_iff in Hin. destruct Hin as (q & Eq & Hq).
  apply keep_last_incl in Hq.
  assert (Hk : existsb (same_key x) l = true).
  { apply has_key_iff. exists q. unfold key in Eq. injection Eq as E1 E2.
    split; [exact Hq | split; congruence]. }
  congruence.
Qed.

(** The row that [keep_last] keeps for a key is the last one with it. *)
Lemma keep_last_is_last (l : list row) (r : row) :
  In r (keep_last l) ->
  exists before after, l = before ++ r :: after /\
                       existsb (same_key r) after = false.
Proof.
  induction l as [|x l IH]; simpl; [tauto|].
  destruct (existsb (same_key x) l) eqn:Ex.
  - intros H. destruct (IH H) as (b & a & -> & Ha). now exists (x :: b), a.
  - intros [-> | H].
    + now exists [], l.
    + destruct (IH H) as (b & a & -> & Ha). now exists (x :: b), a.
Qed.

(** After a successful [GetData] that found a frame in the store, no
    two rows of the store share location and time, the index labels are
    0, 1, 2, ..., every key that was in the store is still there, and
    the row kept for a key is the last one that had it. *)
Theorem store_keys_unique_after_later_fetch
    (soup : Z -> outcome string) (location : string) (self self' : scraper)
    (current df_wind : DataFrame) :
  data self = Some current ->
  GetData soup location self = (Return df_wind, self') ->
  exists stored,
    data self' = Some stored /\
    NoDup (map key (records stored)) /\
    map fst stored = seq 0 (List.length stored) /\
    (forall r, In r (records current) ->
       exists q, In q (records stored) /\ key q = key r) /\
    (forall q, In q (records stored) ->
       exists before after, records current = before ++ q :: after /\
                            forall r, In r after -> key r <> key q).
Proof.
  intros Hd HG. exists (drop_duplicates current).
  split; [exact (GetData_on_store _ _ _ _ _ _ Hd HG)|].
  unfold drop_duplicates. rewrite records_range_index.
  split; [apply keep_last_NoDup|].
  split.
  { rewrite range_index_labels. f_equal. unfold range_index.
    rewrite length_combine, length_seq. lia. }
  split.
  - intros r Hr.
    destruct (existsb (same_key r) (keep_last (records current))) eqn:E.
    + apply has_key_iff in E. destruct E as (q & Hq & HL & HD).
      exists q. split; [exact Hq|]. unfold key. now rewrite HL, HD.
    + rewrite keep_last_keys in E. exfalso.
      assert (Ht : existsb (same_key r) (records current) = true).
      { apply has_key_iff. now exists r. }
      congruence.
  - intros q Hq. destruct (keep_last_is_last _ _ Hq) as (b & a & E & Ha).
    exists b, a. split; [exact E|]. intros r Hr Hk.
    assert (Ht : existsb (same_key q) a = true).
    { apply has_key_iff. exists r. unfold key in Hk. injection Hk as E1 E2.
      split; [exact Hr | split; congruence]. }
    congruence.
Qed.



(** ** The decoded payload *)

Lemma parse_members_object (fuel : nat) :
  forall l acc v r, parse_members fuel l acc = Some (v, r) ->
                    exists members, v = JObject members.
Proof.
  induction fuel as [|fuel IH]; intros l acc v r H; [discriminate|].
  simpl in H.
  repeat match type of H with
         | context [match ?x with _ => _ end] =>
             lazymatch x with
             | parse_members _ _ _ => fail
             | _ => destruct x eqn:?; try discriminate
             end
         end.
  - eapply IH; eassumption.
  - injection H as <- _. eauto.
Qed.

Lemma parse_value_brace (fuel : nat) (rest : list ascii) (v : json) (r : list ascii) :
  parse_value fuel ("{"%char :: rest) = Some (v, r) ->
  exists members, v = JObject members.
Proof.
  destruct fuel as [|fuel]; [discriminate|]. simpl.
  destruct (skip_ws rest) as [|c' r']; [discriminate|].
  destruct (Ascii.eqb c' "}").
  - intros H. injection H as <- _. eauto.
  - apply parse_members_object.
Qed.

Lemma slice_head (l : list ascii) (a b : Z) (x : ascii) (rest : list ascii) :
  0 <= a ->
  slice_list l (Some a) (Some b) = x :: rest -> nth_error l (Z.to_nat a) = Some x.
Proof.
  intros Ha. unfold slice_list, adjust.
  destruct (Z.ltb_spec a 0) as [Hneg | _]; [lia|].
  set (n := Z.of_nat (List.length l)).
  set (k := Z.to_nat _). set (m := Z.to_nat _). intros H.
  assert (Hs : hd_error (skipn m l) = Some x).
  { destruct (skipn m l) as [|y t]; [now rewrite firstn_nil in H|].
    destruct k; [discriminate|]. simpl in H. now injection H as -> _. }
  rewrite hd_error_skipn in Hs.
  assert (Hm : (m < List.length l)%nat) by (apply nth_error_Some; congruence).
  replace (Z.to_nat a) with m by (subst m n; lia). exact Hs.
Qed.

Lemma extract_object (soup_text : string) (wind_dict : json) :
  extract_wind_dict soup_text = Return wind_dict ->
  exists members, wind_dict = JObject members.
Proof.
  unfold extract_wind_dict, index.
  destruct (find_from "{" 0 (chars soup_text)) as [i|] eqn:Ei; [|discriminate].
  simpl. pose proof (find_from_bounds _ _ _ _ Ei) as Hb.
  unfold json_loads, slice. rewrite chars_of_chars.
  destruct (slice_list (chars soup_text) (Some i) _) as [|x rest] eqn:Es;
    [discriminate|].
  pose proof (slice_head _ _ _ _ _ (proj1 Hb) Es) as Hx.
  replace i with (0 + Z.of_nat (Z.to_nat i)) in Ei by lia.
  apply first_at_of_find in Ei. destruct Ei as [Hn _].
  rewrite Hn in Hx. injection Hx as <-.
  change (skip_ws ("{"%char :: rest)) with ("{"%char :: rest).
  destruct (parse_value _ _) as [[v r]|] eqn:Ev; [|discriminate].
  destruct (skip_ws r); [|discriminate].
  intros H. injection H as <-. exact (parse_value_brace _ _ _ _ Ev).
Qed.

(** ** The horizontal axis of the plot *)

Lemma stride6_nth {A : Type} (l : list A) :
  forall skip k, (skip <= 5)%nat ->
                 nth_error (stride6 skip l) k = nth_error l (skip + 6 * k).
Proof.
  induction l as [|x l IH]; intros skip k Hs; cbn [stride6].
  - destruct k; destruct (skip + _)%nat; reflexivity.
  - destruct skip as [|j].
    + destruct k as [|k]; [reflexivity|].
      replace (0 + 6 * S k)%nat with (S (5 + 6 * k)) by lia.
      cbn [nth_error]. apply IH. lia.
    + replace (S j + 6 * k)%nat with (S (j + 6 * k)) by lia.
      cbn [nth_error]. apply IH. lia.
Qed.

Lemma stride6_length {A B : Type} (l : list A) (l' : list B) :
  List.length l = List.length l' ->
  forall skip, List.length (stride6 skip l) = List.length (stride6 skip l').
Proof.
  revert l'. induction l as [|x l IH]; intros [|y l'] H skip; try discriminate.
  - reflexivity.
  - simpl in *. injection H as H. destruct skip; simpl; auto.
Qed.

(** The ticks of the horizontal axis and their labels have one length;
    the ticks are 0, 6, 12, ... below the number of rows, and the label
    of tick 6k is the hour label of the row at position 6k. *)
Theorem xticks_aligned (df_wind : DataFrame) :
  let (ticks, labels) := xticks df_wind in
  List.length ticks = List.length labels /\
  forall k,
    nth_error ticks k =
      (if (6 * k <? List.length df_wind)%nat then Some (6 * Z.of_nat k) else None) /\
    nth_error labels k =
      option_map (fun ir => Hour (snd ir)) (nth_error df_wind (6 * k)).
Proof.
  unfold xticks. split.
  - apply stride6_length. now rewrite length_map, length_seq.
  - intros k. rewrite !stride6_nth by lia. rewrite !Nat.add_0_l. split.
    + rewrite nth_error_map, length_map.
      destruct (Nat.ltb_spec (6 * k) (List.length df_wind)) as [Hlt | Hge].
      * rewrite nth_error_seq. 
        destruct (Nat.ltb_spec (6 * k) (List.length df_wind)); [|lia].
        cbn [option_map]. f_equal. lia.
      * rewrite nth_error_seq.
        destruct (Nat.ltb_spec (6 * k) (List.length df_wind)); [lia|]. reflexivity.
    + apply nth_error_map.
Qed.







(** ** The instance over many calls *)

Lemma GetData_any_step (soup : Z -> outcome string) (location : string) (self : scraper) :
  let self' := snd (GetData soup location self) in
  (data self' = data self \/
   (data self = None /\
    exists wind_dict df, OrganizeData wind_dict = Return df /\ data self' = Some df) \/
   (exists current, data self = Some current /\
                    data self' = Some (drop_duplicates current))) /\
  (dict self' = dict self \/ exists members, dict self' = Some (JObject members)).
Proof.
  cbv zeta. rewrite GetData_stages.
  destruct (spot_id_of location) as [spot_id|]; [|now split; left].
  destruct (soup spot_id) as [soup_text|]; [|now split; left].
  destruct (extract_wind_dict soup_text) as [wind_dict|] eqn:Ex; [|now split; left].
  destruct (extract_object _ _ Ex) as (members & ->).
  destruct (OrganizeData _) as [df|] eqn:Eo; simpl.
  - split; [|right; eauto]. destruct (data self) as [current|] eqn:Ed.
    + right. right. eauto.
    + right. left. eauto.
  - split; [now left | right; eauto].
Qed.

Lemma poll_invariant (calls : list ((Z -> outcome string) * string)) :
  forall self,
    (data self = None \/
     exists wind_dict df, OrganizeData wind_dict = Return df /\
       (data self = Some df \/ data self = Some (drop_duplicates df))) ->
    data (poll calls self) = None \/
    exists wind_dict df, OrganizeData wind_dict = Return df /\
      (data (poll calls self) = Some df \/
       data (poll calls self) = Some (drop_duplicates df)).
Proof.
  induction calls as [|[soup location] calls IH]; intros self Hinv; [exact Hinv|].
  simpl. apply IH.
  destruct (GetData_any_step soup location self) as [Hd _].
  destruct Hd as [E | [(_ & wd & df & Ho & E) | (cur & Ec & E)]].
  - now rewrite E.
  - right. exists wd, df. auto.
  - destruct Hinv as [Hn | (wd & df & Ho & [Es | Es])]; [congruence| |];
      right; exists wd, df; (split; [exact Ho|]); right;
      rewrite E; rewrite Es in Ec; injection Ec as <-;
      [reflexivity | now rewrite drop_duplicates_idempotent].
Qed.


(** Whatever [GetData] decodes from the text of the transport is a JSON
    object, since the slice starts at an opening brace; so the field
    [dict] of an instance that only [GetData] has touched holds nothing
    or a JSON object. *)
Theorem decoded_payload_is_object :
  (forall soup_text wind_dict,
     extract_wind_dict soup_text = Return wind_dict ->
     exists members, wind_dict = JObject members) /\
  (forall calls,
     dict (poll calls init) = None \/
     exists members, dict (poll calls init) = Some (JObject members)).
Proof.
  split; [exact extract_object|].
  intros calls.
  assert (G : forall self,
            (dict self = None \/ exists members, dict self = Some (JObject members)) ->
            dict (poll calls self) = None \/
            exists members, dict (poll calls self) = Some (JObject members)).
  { induction calls as [|[soup location] calls IH]; intros self Hinv; [exact Hinv|].
    simpl. apply IH.
    destruct (GetData_any_step soup location self) as [_ [E | Hm]];
      [now rewrite E | now right]. }
  apply G. now left.
Qed.

Lemma filter_labels_NoDup (p : nat * row -> bool) (df : DataFrame) :
  NoDup (map fst df) -> NoDup (map fst (filter p df)).
Proof.
  induction df as [|x df IH]; simpl; intros H; [constructor|].
  inversion H as [|? ? Hnot Hl]; subst.
  destruct (p x); simpl; [constructor|]; auto.
  intros Hx. apply Hnot. apply in_map_iff in Hx.
  destruct Hx as (y & Ey & Hy). apply filter_In in Hy.
  apply in_map_iff. exists y. tauto.
Qed.

Lemma drop_duplicates_rows (df : DataFrame) (i : nat) (r : row) :
  In (i, r) (drop_duplicates df) -> exists j, In (j, r) df.
Proof.
  unfold drop_duplicates. intros H. apply range_index_rows, keep_last_incl in H.
  unfold records in H. apply in_map_iff in H. destruct H as ([j q] & E & Hin).
  simpl in E. subst q. eauto.
Qed.

Lemma OrganizeData_canonical (wind_dict : json) (df : DataFrame) :
  OrganizeData wind_dict = Return df ->
  exists name id,
    In (name, id) LOCATION_LOOKUP /\
    NoDup (map fst df) /\
    forall i r, In (i, r) df ->
      valid (DateTime r) = true /\
      r = canonical name (DateTime r) (Wind_Speed_mph r).
Proof.
  intros H. destruct (OrganizeData_rows _ _ H) as (df_wind & Hw & Hsub).
  pose proof (wind_frame_labels _ _ Hw) as Hnd.
  pose proof (wind_frame_rows _ _ Hw) as (loc0 & rows & E & Hrows).
  rewrite Forall_forall in Hrows.
  rewrite (OrganizeData_trim _ _ Hw) in H. injection H as <-.
  apply wind_frame_inv in Hw.
  destruct Hw as (? & ? & ? & speeds & times & lid & loc &
                  _ & _ & _ & _ & _ & _ & Hloc & _ & _ & E').
  assert (Hget : dict_get (key_is lid) inv_map = Some loc).
  { unfold location_of in Hloc.
    destruct lid; try discriminate;
      destruct (dict_get _ inv_map); try discriminate; congruence. }
  apply dict_get_some in Hget. destruct Hget as (id & Hin & _).
  exists loc, id. split; [now apply inv_map_entries|].
  split; [now apply filter_labels_NoDup|].
  intros i r Hr. pose proof (Hsub _ Hr) as Hr'. split.
  - rewrite E in Hr'. apply range_index_rows in Hr'. now apply (Hrows r Hr').
  - rewrite E' in Hr'. apply range_index_rows in Hr'.
    unfold canonical_rows in Hr'. apply in_map_iff in Hr'.
    destruct Hr' as ([t v] & <- & _). reflexivity.
Qed.

Lemma reachable_rows (calls : list ((Z -> outcome string) * string))
    (stored : DataFrame) :
  data (poll calls init) = Some stored ->
  exists name id,
    In (name, id) LOCATION_LOOKUP /\
    forall i r, In (i, r) stored ->
      valid (DateTime r) = true /\
      r = canonical name (DateTime r) (Wind_Speed_mph r).
Proof.
  intros Hs.
  destruct (poll_invariant calls init (or_introl eq_refl))
    as [Hn | (wd & df & Ho & Hd)]; [congruence|].
  destruct (OrganizeData_canonical _ _ Ho) as (name & id & Hin & _ & Hrows).
  exists name, id. split; [exact Hin|]. intros i r Hr.
  destruct Hd as [E | E]; rewrite E in Hs; injection Hs as <-.
  - exact (Hrows i r Hr).
  - destruct (drop_duplicates_rows _ _ _ Hr) as (j & Hj). exact (Hrows j r Hj).
Qed.

(** Every row that the store ever holds is a row as [OrganizeData]
    builds it: its time is a valid time, its weekday and hour label are
    those of its time, and its location is one registered name, the
    same for all rows of the store.  No two rows of the store have the
    same index label. *)
Theorem stored_rows_are_canonical (calls : list ((Z -> outcome string) * string))
    (stored : DataFrame) :
  data (poll calls init) = Some stored ->
  NoDup (map fst stored) /\
  exists name id,
    In (name, id) LOCATION_LOOKUP /\
    forall i r, In (i, r) stored ->
      valid (DateTime r) = true /\
      r = canonical name (DateTime r) (Wind_Speed_mph r).
Proof.
  intros Hs. split; [|exact (reachable_rows calls stored Hs)].
  destruct (poll_invariant calls init (or_introl eq_refl))
    as [Hn | (wd & df & Ho & Hd)]; [congruence|].
  destruct Hd as [E | E]; rewrite E in Hs; injection Hs as <-.
  - destruct (OrganizeData_canonical _ _ Ho) as (_ & _ & _ & Hnd & _). exact Hnd.
  - unfold drop_duplicates. rewrite range_index_labels. apply seq_NoDup.
Qed.

Lemma plot_rows_selects (location : string) (self : scraper) :
  plot_rows location self =
  match data self with
  | None => Raise TypeError
  | Some df_wind =>
      Return (filter (fun ir => String.eqb (Location (snd ir)) (title location)) df_wind)
  end.
Proof. reflexivity. Qed.

(** [PlotWindForecast] on an instance that only [GetData] has touched
    raises [TypeError] as long as the store is empty; afterwards it
    selects either every row of the store or none, according to whether
    the title-cased location is the location of the store.  A spot
    number written as text selects nothing: the test against the keys
    of [inv_map] never succeeds. *)
Theorem plot_selects_all_or_nothing (calls : list ((Z -> outcome string) * string)) :
  match data (poll calls init) with
  | None => forall location, plot_rows location (poll calls init) = Raise TypeError
  | Some stored =>
      exists name id,
        In (name, id) LOCATION_LOOKUP /\
        forall location,
          plot_rows location (poll calls init) =
          Return (if String.eqb name (title location) then stored else [])
  end.
Proof.
  destruct (data (poll calls init)) as [stored|] eqn:Ed.
  - destruct (reachable_rows calls stored Ed) as (name & id & Hin & Hrows).
    exists name, id. split; [exact Hin|]. intros location.
    rewrite plot_rows_selects, Ed.
    assert (Hloc : forall ir, In ir stored -> Location (snd ir) = name).
    { intros [i r] Hr. destruct (Hrows i r Hr) as [_ E]. simpl. now rewrite E. }
    clear Hrows Ed. destruct (String.eqb_spec name (title location)) as [<- | Hne].
    + apply f_equal. apply filter_all. intros ir Hr. rewrite (Hloc ir Hr). apply String.eqb_refl.
    + apply f_equal. induction stored as [|ir stored IH]; [reflexivity|]. simpl.
      rewrite (Hloc ir (or_introl eq_refl)).
      destruct (String.eqb_spec name (title location)); [contradiction|].
      apply IH. intros; apply Hloc; now right.
  - intros location. now rewrite plot_rows_selects, Ed.
Qed.

(** The dashed lines of [PlotWindForecast] stand at the index labels of
    the selected rows of hour 0, and nowhere else. *)
Theorem day_lines_at_midnight (calls : list ((Z -> outcome string) * string))
    (location : string) (df_wind : DataFrame) :
  plot_rows location (poll calls init) = Return df_wind ->
  forall i, In i (day_lines df_wind) <->
            exists r, In (i, r) df_wind /\ hour (DateTime r) = 0.
Proof.
  intros Hp i. rewrite plot_rows_selects in Hp.
  destruct (data (poll calls init)) as [stored|] eqn:Ed; [|discriminate].
  injection Hp as <-.
  destruct (reachable_rows calls stored Ed) as (name & id & _ & Hrows).
  pose proof hour_label_injective as Hinj.
  unfold day_lines. rewrite in_map_iff. split.
  - intros ([j r] & E & Hr). simpl in E. subst j. exists r.
    apply filter_In in Hr. destruct Hr as [Hr Hh]. split; [exact Hr|].
    apply filter_In in Hr. destruct Hr as [Hr _].
    destruct (Hrows i r Hr) as [Hv E]. apply valid_bounds in Hv.
    simpl in Hh. apply String.eqb_eq in Hh. rewrite E in Hh. simpl in Hh.
    change "12AM" with (Spec.hour_label 0) in Hh.
    apply Hinj in Hh; [exact Hh | tauto | lia].
  - intros (r & Hr & Hh). exists (i, r). split; [reflexivity|].
    apply filter_In. split; [exact Hr|]. simpl.
    apply filter_In in Hr. destruct Hr as [Hr _].
    destruct (Hrows i r Hr) as [_ E]. rewrite E. simpl. now rewrite Hh.
Qed.

(** A call of [GetData] that raises leaves the instance as it was when
    it raises before the payload is decoded (unknown name, failure of
    the transport, text without a decodable object); when it raises
    later, in [OrganizeData], only the field [dict] has changed, to the
    payload on which [OrganizeData] raised. *)
Theorem failed_call_leaves_instance
    (soup : Z -> outcome string) (location : string) (self self' : scraper) (e : exn) :
  GetData soup location self = (Raise e, self') ->
  (self' = self /\
   (spot_id_of location = Raise e \/
    exists spot_id, spot_id_of location = Return spot_id /\
      (soup spot_id = Raise e \/
       exists soup_text, soup spot_id = Return soup_text /\
                         extract_wind_dict soup_text = Raise e))) \/
  (exists wind_dict,
     self' = mk_scraper (data self) (Some wind_dict) /\
     OrganizeData wind_dict = Raise e).
Proof.
  rewrite GetData_stages.
  destruct (spot_id_of location) as [spot_id|e1].
  2:{ intros H; injection H as <- <-. left. auto. }
  destruct (soup spot_id) as [soup_text|e1] eqn:Es.
  2:{ intros H; injection H as <- <-. left. split; [reflexivity|]. right. eauto. }
  destruct (extract_wind_dict soup_text) as [wind_dict|e1] eqn:Ex.
  2:{ intros H; injection H as <- <-. left. split; [reflexivity|]. right.
      exists spot_id. split; [reflexivity|]. right. eauto. }
  destruct (OrganizeData wind_dict) as [df|e1] eqn:Eo; [discriminate|].
  intros H; injection H as <- <-. right. eauto.
Qed.

(** ** Instances of the further properties *)

Lemma offset_suffix_ignored_witness :
  String.length "-0700" = 5%nat /\
  parse_local_time (JString ("2024-11-03 01:00:00" ++ "-0700")%string) =
    strptime "2024-11-03 01:00:00" /\
  parse_local_time (JString ("2024-11-03 01:00:00" ++ "-0800")%string) =
    strptime "2024-11-03 01:00:00".
Proof.
  split; [reflexivity|]. split.
  - apply (offset_suffix_ignored "2024-11-03 01:00:00" "-0700"). reflexivity.
  - apply (offset_suffix_ignored "2024-11-03 01:00:00" "-0800"). reflexivity.
Defined.

Lemma short_time_text_rejected_witness :
  (String.length "-0800" <= 5)%nat /\
  parse_local_time (JString "-0800") = Raise ValueError.
Proof.
  split; [simpl; lia|].
  apply (short_time_text_rejected "-0800"). simpl. lia.
Defined.

Lemma lookup_ignores_case_witness :
  is_ascii "PALO alto" = true /\ is_ascii "palo ALTO" = true /\
  lower "PALO alto" = lower "palo ALTO" /\
  spot_id_of "PALO alto" = spot_id_of "palo ALTO" /\
  spot_id_of "PALO alto" = Return 425 /\
  title (title "3rd ave channel") = title "3rd ave channel" /\
  title "3rd ave channel" = "3Rd Ave Channel".
Proof.
  destruct lookup_ignores_case as (Hidem & _ & _ & Hcase & _).
  split; [reflexivity|]. split; [reflexivity|]. split; [reflexivity|].
  split; [apply (Hcase "PALO alto" "palo ALTO"); reflexivity|].
  split; [reflexivity|].
  split; [apply (Hidem "3rd ave channel"); reflexivity | reflexivity].
Defined.

Lemma transport_asked_for_registered_spots_only_witness :
  served palo_alto_10 0 <> served_but_zero palo_alto_10 0 /\
  GetData (served palo_alto_10) "Palo Alto" init =
  GetData (served_but_zero palo_alto_10) "Palo Alto" init.
Proof.
  split; [discriminate|].
  apply (transport_asked_for_registered_spots_only
           (served palo_alto_10) (served_but_zero palo_alto_10) "Palo Alto" init).
  intros name id Hin. apply registry_entries in Hin.
  destruct Hin as [E | [E | [E | E]]]; injection E as _ ->; reflexivity.
Defined.

Lemma wind_frame_one_row_per_record_witness :
  plain_payload two_days /\
  wind_frame two_days = Return two_days_frame /\
  exists model_data items texts speeds times location_id location,
    getitem two_days "model_data" = Return model_data /\
    iter model_data = Return items /\
    comprehension (fun x => getitem x "model_time_local") items = Return texts /\
    comprehension (fun x => getitem x "wind_speed") items = Return speeds /\
    comprehension parse_local_time texts = Return times /\
    getitem two_days "spot_id" = Return location_id /\
    location_of location_id = Return location /\
    List.length times = List.length items /\
    List.length speeds = List.length items /\
    two_days_frame = range_index (canonical_rows location times speeds).
Proof.
  assert (Hplain : plain_payload two_days).
  { intros model_data items Hmd Hit. injection Hmd as <-. injection Hit as <-.
    split.
    - intros texts s Htx Hin. injection Htx as <-.
      destruct Hin as [E | [E | []]]; injection E as <-; reflexivity.
    - intros speeds Hsp. injection Hsp as <-. left.
      repeat constructor; eexists; (split; [reflexivity | lia]). }
  split; [exact Hplain|]. split; [reflexivity|].
  apply (proj1 (wind_frame_one_row_per_record two_days two_days_frame Hplain)).
  reflexivity.
Defined.

Lemma OrganizeData_raises_only_witness :
  OrganizeData (payload 999 [("2024-03-07 09:00:00-0800", 12)]) =
    Raise (KeyError (JInt 999)) /\
  expected_error (payload 999 [("2024-03-07 09:00:00-0800", 12)]) (KeyError (JInt 999)).
Proof.
  split; [reflexivity|].
  apply (OrganizeData_raises_only (payload 999 [("2024-03-07 09:00:00-0800", 12)])).
  reflexivity.
Defined.

Lemma rows_carry_payload_location_witness :
  OrganizeData two_days = Return two_days_frame /\
  exists location_id id name,
    getitem two_days "spot_id" = Return location_id /\
    key_is location_id id = true /\
    In (name, id) LOCATION_LOOKUP /\
    forall i r, In (i, r) two_days_frame -> Location r = name.
Proof.
  split; [reflexivity|].
  apply (rows_carry_payload_location two_days two_days_frame). reflexivity.
Defined.

Lemma hour_label_tells_hour_witness :
  (Spec.hour_label 12 = Spec.hour_label 12 -> 12 = 12) /\
  OrganizeData two_days = Return two_days_frame /\
  (Hour (mk_row "Palo Alto" (mk_datetime 2024 3 8 0 0 0) "Friday" "12AM" (JInt 12)) = "12AM" <->
   hour (DateTime (mk_row "Palo Alto" (mk_datetime 2024 3 8 0 0 0) "Friday" "12AM" (JInt 12))) = 0).
Proof.
  destruct hour_label_tells_hour as [Hinj Hmid].
  split; [apply (Hinj 12 12); lia|]. split; [reflexivity|].
  apply (Hmid two_days two_days_frame 1%nat).
  - reflexivity.
  - simpl. right. left. reflexivity.
Defined.

Lemma trimming_keeps_labels_and_first_rows_witness :
  wind_frame two_fridays = OrganizeData two_fridays /\
  drop_repeated_days
    [(0%nat, mk_row "Palo Alto" (mk_datetime 2024 3 1 9 0 0) "Friday" "9AM" (JInt 10));
     (1%nat, mk_row "Palo Alto" (mk_datetime 2024 11 1 9 0 0) "Friday" "9AM" (JInt 12))] =
  Return
    [(0%nat, mk_row "Palo Alto" (mk_datetime 2024 3 1 9 0 0) "Friday" "9AM" (JInt 10));
     (1%nat, mk_row "Palo Alto" (mk_datetime 2024 11 1 9 0 0) "Friday" "9AM" (JInt 12))].
Proof.
  split; [reflexivity|].
  apply (trimming_keeps_labels_and_first_rows two_fridays
           [(0%nat, mk_row "Palo Alto" (mk_datetime 2024 3 1 9 0 0) "Friday" "9AM" (JInt 10));
            (1%nat, mk_row "Palo Alto" (mk_datetime 2024 11 1 9 0 0) "Friday" "9AM" (JInt 12))]);
    reflexivity.
Defined.

Lemma trimming_is_by_date_within_four_weeks_witness :
  wind_frame two_days = Return two_days_frame /\
  OrganizeData two_days = Return (first_dates_only two_days_frame).
Proof.
  split; [reflexivity|].
  apply (trimming_is_by_date_within_four_weeks two_days two_days_frame).
  - reflexivity.
  - intros i r j q [E | [E | []]] [E' | [E' | []]];
      injection E as <- <-; injection E' as <- <-; vm_compute; reflexivity.
Defined.

Lemma store_never_grows_witness :
  data (fetch_once palo_alto_10) = Some [(0%nat, at_T (JInt 10))] /\
  (data (poll [(served palo_alto_12, "Palo Alto"); (served two_days_text, "Palo Alto")]
           (fetch_once palo_alto_10)) = Some [(0%nat, at_T (JInt 10))] \/
   data (poll [(served palo_alto_12, "Palo Alto"); (served two_days_text, "Palo Alto")]
           (fetch_once palo_alto_10)) =
     Some (drop_duplicates [(0%nat, at_T (JInt 10))])).
Proof.
  split; [reflexivity|].
  apply (store_never_grows
           [(served palo_alto_12, "Palo Alto"); (served two_days_text, "Palo Alto")]
           (fetch_once palo_alto_10)).
  reflexivity.
Defined.

Lemma store_keys_unique_after_later_fetch_witness :
  data (fetch_once palo_alto_autumn) =
    Some [(0%nat, at_1AM (JInt 10)); (1%nat, at_1AM (JInt 12))] /\
  exists stored,
    data (fetch_twice palo_alto_autumn palo_alto_12) = Some stored /\
    NoDup (map key (records stored)) /\
    map fst stored = seq 0 (List.length stored).
Proof.
  split; [reflexivity|].
  destruct (store_keys_unique_after_later_fetch
              (served palo_alto_12) "Palo Alto" (fetch_once palo_alto_autumn)
              (fetch_twice palo_alto_autumn palo_alto_12)
              [(0%nat, at_1AM (JInt 10)); (1%nat, at_1AM (JInt 12))]
              [(0%nat, at_T (JInt 12))])
    as (stored & Hs & Hk & Hl & _).
  - reflexivity.
  - reflexivity.
  - exists stored. auto.
Defined.



Lemma decoded_payload_is_object_witness :
  extract_wind_dict palo_alto_10 =
    Return (payload 425 [("2024-03-07 09:00:00-0800", 10)]) /\
  exists members, payload 425 [("2024-03-07 09:00:00-0800", 10)] = JObject members.
Proof.
  destruct decoded_payload_is_object as [Hobj _].
  split; [reflexivity|].
  apply (Hobj palo_alto_10). reflexivity.
Defined.

Lemma stored_rows_are_canonical_witness :
  data (poll [(served two_days_text, "Palo Alto")] init) = Some two_days_frame /\
  NoDup (map fst two_days_frame) /\
  exists name id,
    In (name, id) LOCATION_LOOKUP /\
    forall i r, In (i, r) two_days_frame ->
      valid (DateTime r) = true /\
      r = canonical name (DateTime r) (Wind_Speed_mph r).
Proof.
  split; [reflexivity|].
  apply (stored_rows_are_canonical [(served two_days_text, "Palo Alto")]).
  reflexivity.
Defined.

Lemma day_lines_at_midnight_witness :
  plot_rows "palo alto" (poll [(served two_days_text, "Palo Alto")] init) =
    Return two_days_frame /\
  day_lines two_days_frame = [1%nat] /\
  (In 1%nat (day_lines two_days_frame) <->
   exists r, In (1%nat, r) two_days_frame /\ hour (DateTime r) = 0).
Proof.
  split; [reflexivity|]. split; [reflexivity|].
  apply (day_lines_at_midnight [(served two_days_text, "Palo Alto")] "palo alto").
  reflexivity.
Defined.

Lemma failed_call_leaves_instance_witness :
  GetData (served bad_time) "Palo Alto" (fetch_once palo_alto_10) =
    (Raise ValueError,
     mk_scraper (data (fetch_once palo_alto_10))
                (Some (payload 425 [("yesterday at noon", 12)]))) /\
  GetData (served palo_alto_12) "Atlantis" (fetch_once palo_alto_10) =
    (Raise (KeyError (JString "Atlantis")), fetch_once palo_alto_10) /\
  ((fetch_once palo_alto_10 = fetch_once palo_alto_10 /\
    (spot_id_of "Atlantis" = Raise (KeyError (JString "Atlantis")) \/
     exists spot_id, spot_id_of "Atlantis" = Return spot_id /\
       (served palo_alto_12 spot_id = Raise (KeyError (JString "Atlantis")) \/
        exists soup_text, served palo_alto_12 spot_id = Return soup_text /\
          extract_wind_dict soup_text = Raise (KeyError (JString "Atlantis"))))) \/
   exists wind_dict,
     fetch_once palo_alto_10 =
       mk_scraper (data (fetch_once palo_alto_10)) (Some wind_dict) /\
     OrganizeData wind_dict = Raise (KeyError (JString "Atlantis"))).
Proof.
  split; [reflexivity|]. split; [reflexivity|].
  apply (failed_call_leaves_instance (served palo_alto_12) "Atlantis"
           (fetch_once palo_alto_10) (fetch_once palo_alto_10)).
  reflexivity.
Defined.
